(** * ReportManager: the [user] table module ([RM/mysql/t_user.py])

    A shallow embedding of the six operations of [t_user.py] ([search],
    [fetch], [__contains__], [pop], [set_status], [reset_status]) over an
    explicit model of the three tables they touch ([user], [current],
    [history]), and the properties of the reviewer scheduler proved on it.

    Modelling decisions, all visible in the definitions below:
    - arguments are dynamically typed Python values ([pyval]), because the
      functions guard themselves with [assert type(x) == ...];
    - a failed [assert] is an [AssertionError] carrying the source's message;
    - every [cursor.execute] is recorded in a statement log, so that
      "before any Directory access" is a statement about that log;
    - SQL string comparison is byte equality (a binary collation), all
      columns are NOT NULL, and a DATETIME is a number of seconds;
    - [ORDER BY] fixes the order of rows with different keys only: the rows
      [fetchall] hands back are any sorted permutation of the selected rows. *)

From Stdlib Require Import ZArith List String Ascii Bool Lia.
From Stdlib Require Import Permutation Sorted.
Import ListNotations.
Open Scope Z_scope.
Set Warnings "-register-all".

(** ** Python values *)

Inductive pyval : Type :=
| PyNone
| PyBool (b : bool)
| PyInt (n : Z)
| PyStr (s : string)
| PyList (l : list pyval).

Inductive pytype : Type := TNoneType | TBool | TInt | TStr | TList.

(** [type(v)] *)
Definition type_of (v : pyval) : pytype :=
  match v with
  | PyNone => TNoneType
  | PyBool _ => TBool
  | PyInt _ => TInt
  | PyStr _ => TStr
  | PyList _ => TList
  end.

Definition pytype_eqb (a b : pytype) : bool :=
  match a, b with
  | TNoneType, TNoneType | TBool, TBool | TInt, TInt
  | TStr, TStr | TList, TList => true
  | _, _ => false
  end.

(** [bool(v)], the truth value used by [if v:] and [not v] *)
Definition truthy (v : pyval) : bool :=
  match v with
  | PyNone => false
  | PyBool b => b
  | PyInt n => negb (n =? 0)
  | PyStr s => negb (String.eqb s EmptyString)
  | PyList l => match l with [] => false | _ :: _ => true end
  end.

(** [v == k] for an int literal [k]: [True == 1] and [False == 0] hold. *)
Definition py_eq_int (v : pyval) (k : Z) : bool :=
  match v with
  | PyInt n => n =? k
  | PyBool b => (if b then 1 else 0) =? k
  | _ => false
  end.

(** [v in [k1, k2, ...]] for a list of int literals *)
Definition py_in_ints (v : pyval) (ks : list Z) : bool :=
  existsb (py_eq_int v) ks.

(** [s == v] for a [str] value [s] coming out of the database; also the
    comparison [col = %s] of a string column with a bound parameter. *)
Definition str_eq_py (s : string) (v : pyval) : bool :=
  match v with
  | PyStr t => String.eqb s t
  | _ => false
  end.

(** [s in l] for a Python list [l] *)
Definition str_in_py (s : string) (l : list pyval) : bool :=
  existsb (str_eq_py s) l.

(** The integer the connector binds for a Python int or bool. *)
Definition sql_int (v : pyval) : Z :=
  match v with
  | PyInt n => n
  | PyBool b => if b then 1 else 0
  | _ => 0
  end.

(** [l[0:stop]]: a negative [stop] counts from the end of the list. *)
Definition py_slice_to {A : Type} (l : list A) (stop : Z) : list A :=
  if stop <? 0
  then firstn (Z.to_nat (Z.max 0 (Z.of_nat (List.length l) + stop))) l
  else firstn (Z.to_nat stop) l.

(** ** The tables *)

Record user_row : Type := mk_user {
  u_id : string;
  u_name : string;
  u_phone : string;
  u_role : Z;
  u_available : Z;
  u_status : Z;
  u_status_since : Z;
  u_pages : Z
}.

Record current_row : Type := mk_current {
  c_reviewerid : string;
  c_start : Z
}.

Record history_row : Type := mk_history {
  h_id : Z;
  h_reviewerid : string;
  h_end : Z
}.

Record database : Type := mk_db {
  user : list user_row;
  current : list current_row;
  history : list history_row
}.

(** The statements the module sends, one tag per [cursor.execute]. *)
Inductive stmt : Type :=
| SelectSearch
| SelectFetch
| SelectContains
| SelectPop
| UpdateSetStatus
| UpdateResetStatus.

(** The world an operation runs in: the database, the clock that [NOW()]
    reads, and the statements executed so far. *)
Record world : Type := mk_world {
  w_db : database;
  w_now : Z;
  w_log : list stmt
}.

(** ** Outcomes and the state-and-exception monad of the operations *)

Inductive exn : Type :=
| AssertionError (msg : string).

Inductive outcome (A : Type) : Type :=
| Ok (a : A)
| Raise (e : exn).
Arguments Ok {A} a.
Arguments Raise {A} e.

Definition M (A : Type) : Type := world -> outcome A * world.

Definition ret {A : Type} (a : A) : M A := fun w => (Ok a, w).

Definition raise {A : Type} (e : exn) : M A := fun w => (Raise e, w).

Definition bind {A B : Type} (m : M A) (f : A -> M B) : M B :=
  fun w =>
    match m w with
    | (Ok a, w') => f a w'
    | (Raise e, w') => (Raise e, w')
    end.

Notation "x <- m ;; k" := (bind m (fun x => k))
  (at level 61, m at next level, right associativity).
Notation "m ;; k" := (bind m (fun _ => k))
  (at level 61, right associativity).

(** [assert cond, msg] *)
Definition py_assert (cond : bool) (msg : string) : M unit :=
  if cond then ret tt else raise (AssertionError msg).

Definition logged (s : stmt) (w : world) : world :=
  mk_world (w_db w) (w_now w) (w_log w ++ [s]).

(** [cursor.execute] of a SELECT: the statement is logged, the database is
    read. *)
Definition execute_select {A : Type} (s : stmt) (q : database -> Z -> A) : M A :=
  fun w => (Ok (q (w_db w) (w_now w)), logged s w).

(** [cursor.execute] of an UPDATE on [user], followed by [cnx.commit()]. *)
Definition execute_update (s : stmt) (f : Z -> user_row -> user_row) : M unit :=
  fun w => (Ok tt,
            mk_world (mk_db (map (f (w_now w)) (user (w_db w)))
                            (current (w_db w)) (history (w_db w)))
                     (w_now w) (w_log w ++ [s])).

(** [cursor.fetchone()] *)
Definition fetchone {A : Type} (rows : list A) : option A :=
  match rows with
  | [] => None
  | r :: _ => Some r
  end.

(** ** SQL helpers *)

(** [subject LIKE pat]: [%] matches any run of characters, [_] any single
    character, and a backslash takes the next pattern character literally. *)
Fixpoint like (pat : string) : string -> bool :=
  match pat with
  | EmptyString =>
      fun s => match s with EmptyString => true | String _ _ => false end
  | String c pat' =>
      if Ascii.eqb c "%"%char then
        fix star (s : string) : bool :=
          like pat' s
          || match s with EmptyString => false | String _ s' => star s' end
      else if Ascii.eqb c "_"%char then
        fun s => match s with EmptyString => false | String _ s' => like pat' s' end
      else if Ascii.eqb c "\"%char then
        match pat' with
        | EmptyString =>
            fun s => match s with
                     | String d EmptyString => Ascii.eqb d c
                     | _ => false
                     end
        | String e pat'' =>
            fun s => match s with
                     | EmptyString => false
                     | String d s' => Ascii.eqb d e && like pat'' s'
                     end
        end
      else
        fun s => match s with
                 | EmptyString => false
                 | String d s' => Ascii.eqb d c && like pat' s'
                 end
  end.

(** ['%{}%'.format(x)] *)
Definition contains_pattern (x : string) : string :=
  ("%" ++ x ++ "%")%string.

(** [DATEDIFF(a, b)]: the difference of the two calendar dates, in days. *)
Definition seconds_per_day : Z := 86400.

Definition DATEDIFF (a b : Z) : Z := a / seconds_per_day - b / seconds_per_day.

(** [SELECT MIN(x)]: NULL on no rows. *)
Definition sql_min (xs : list Z) : option Z :=
  match xs with
  | [] => None
  | x :: rest => Some (fold_left Z.min rest x)
  end.

(** [IFNULL(x, d)] *)
Definition IFNULL {A : Type} (x : option A) (d : A) : A :=
  match x with
  | Some v => v
  | None => d
  end.

(** ** [search], [fetch], [__contains__] *)

(** The tuple [(id, name, phone, role, status)] both return. *)
Definition user_tuple : Type := (string * string * string * Z * Z)%type.

Definition select_user_columns (u : user_row) : user_tuple :=
  (u_id u, u_name u, u_phone u, u_role u, u_status u).

Definition is_str (v : pyval) : bool := pytype_eqb (type_of v) TStr.

Definition str_of (v : pyval) : string :=
  match v with
  | PyStr s => s
  | _ => EmptyString
  end.

Definition search_where (only_reviewer : bool) (user_id name phone : string)
    (u : user_row) : bool :=
  (u_available u =? 1)
  && (if only_reviewer then u_role u =? 1 else true)
  && like (contains_pattern user_id) (u_id u)
  && like (contains_pattern name) (u_name u)
  && like (contains_pattern phone) (u_phone u).

(** [search]; the result is the list stored under the key ['user']. *)
Definition search (user_id name phone only_reviewer : pyval)
    : M (list user_tuple) :=
  py_assert (is_str user_id) "invalid arg: user_id" ;;
  py_assert (is_str name) "invalid arg: name" ;;
  py_assert (is_str phone) "invalid arg: phone" ;;
  execute_select SelectSearch (fun db _ =>
    map select_user_columns
        (filter (search_where (truthy only_reviewer)
                              (str_of user_id) (str_of name) (str_of phone))
                (user db))).

Definition fetch (user_id : pyval) : M (option user_tuple) :=
  py_assert (is_str user_id) "invalid arg: user_id" ;;
  execute_select SelectFetch (fun db _ =>
    fetchone (map select_user_columns
                  (filter (fun u => str_eq_py (u_id u) user_id) (user db)))).

Definition contains_where (only_reviewer : bool) (user_id : pyval)
    (u : user_row) : bool :=
  (u_available u =? 1)
  && (if only_reviewer then u_role u =? 1 else true)
  && str_eq_py (u_id u) user_id.

Definition __contains__ (user_id only_reviewer : pyval) : M bool :=
  py_assert (is_str user_id) "invalid arg: user_id" ;;
  row <- execute_select SelectContains (fun db _ =>
           fetchone (map (fun _ => 1)
                         (filter (contains_where (truthy only_reviewer) user_id)
                                 (user db)))) ;;
  ret (match row with Some _ => true | None => false end).

(** ** [pop]: the snapshot query *)

(** One row [(id, name, phone, role, status, pages_diff, current)] of the
    query's result; [item[0]] is [p_id] and [item[4]] is [p_status]. *)
Record pick : Type := mk_pick {
  p_id : string;
  p_name : string;
  p_phone : string;
  p_role : Z;
  p_status : Z;
  p_pages_diff : Z;
  p_current : Z
}.

(** [WHERE available = 1 AND role = 1] *)
Definition eligible (u : user_row) : bool :=
  (u_available u =? 1) && (u_role u =? 1).

(** [SELECT reviewerid, end FROM history ORDER BY id DESC LIMIT 1] *)
Fixpoint latest_history (h : list history_row) : option history_row :=
  match h with
  | [] => None
  | r :: rest =>
      match latest_history rest with
      | None => Some r
      | Some m => if h_id r <? h_id m then Some m else Some r
      end
  end.

(** [EXISTS (SELECT 1 FROM current
            WHERE current.start > latest_history.end
              AND current.reviewerid != '')] *)
Definition started_after (cur : list current_row) (lh : history_row) : bool :=
  existsb (fun c => (h_end lh <? c_start c)
                    && negb (String.eqb (c_reviewerid c) EmptyString)) cur.

(** The scalar sub-query the [id] is compared with: the reviewer of the
    latest history row when nothing started after its end, NULL otherwise. *)
Definition latest_reviewerid (db : database) : option string :=
  match latest_history (history db) with
  | None => None
  | Some lh =>
      if started_after (current db) lh then None else Some (h_reviewerid lh)
  end.

(** [IF(id = (...), -1, status)]: a comparison with NULL is not true. *)
Definition effective_status (db : database) (u : user_row) : Z :=
  match latest_reviewerid db with
  | Some rid => if String.eqb (u_id u) rid then -1 else u_status u
  | None => u_status u
  end.

(** [SELECT MIN(pages) FROM user WHERE available = 1 AND role = 1] *)
Definition min_pages (db : database) : option Z :=
  sql_min (map u_pages (filter eligible (user db))).

(** [pages - (SELECT MIN(pages) ...)]; the minimum is NULL only when no row
    is eligible, and then the outer query has no row to compute this for. *)
Definition pages_diff (db : database) (u : user_row) : Z :=
  u_pages u - IFNULL (min_pages db) 0.

(** [SELECT reviewerid, COUNT(1) AS current FROM current GROUP BY reviewerid] *)
Definition temp_count (cur : list current_row) : list (string * Z) :=
  map (fun rid =>
         (rid, Z.of_nat (List.length
                 (filter (fun c => String.eqb (c_reviewerid c) rid) cur))))
      (nodup string_dec (map c_reviewerid cur)).

(** The [current] column of [user LEFT JOIN temp_count ON user.id =
    temp_count.reviewerid]: NULL for a user without a group. *)
Definition joined_current (db : database) (u : user_row) : option Z :=
  option_map snd
    (find (fun g => String.eqb (u_id u) (fst g)) (temp_count (current db))).

Definition select_row (db : database) (u : user_row) : pick :=
  mk_pick (u_id u) (u_name u) (u_phone u) (u_role u)
          (effective_status db u)
          (pages_diff db u)
          (IFNULL (joined_current db u) 0).

(** The rows of the query before [ORDER BY], in table order. *)
Definition select_from_user (db : database) : list pick :=
  map (select_row db) (filter eligible (user db)).

(** [ORDER BY current, pages_diff] *)
Definition key_leb (a b : pick) : bool :=
  (p_current a <? p_current b)
  || ((p_current a =? p_current b) && (p_pages_diff a <=? p_pages_diff b)).

Fixpoint sortedb (l : list pick) : bool :=
  match l with
  | [] => true
  | a :: rest =>
      match rest with
      | [] => true
      | b :: _ => key_leb a b && sortedb rest
      end
  end.

Definition pick_eq_dec (a b : pick) : {a = b} + {a <> b}.
Proof.
  decide equality; solve [apply Z.eq_dec | apply string_dec].
Defined.

Fixpoint remove_one (x : pick) (l : list pick) : option (list pick) :=
  match l with
  | [] => None
  | y :: rest =>
      if pick_eq_dec x y then Some rest
      else option_map (cons y) (remove_one x rest)
  end.

(** [permb l1 l2]: the two lists hold the same rows, each as many times. *)
Fixpoint permb (l1 l2 : list pick) : bool :=
  match l1 with
  | [] => match l2 with [] => true | _ :: _ => false end
  | x :: rest =>
      match remove_one x l2 with
      | Some l2' => permb rest l2'
      | None => false
      end
  end.

(** What [cursor.fetchall()] may return for a query ending in [ORDER BY]:
    the selected rows, rearranged so that the keys ascend.  The order of rows
    with equal keys is the server's choice. *)
Definition order_by_ok (selected fetched : list pick) : bool :=
  permb selected fetched && sortedb fetched.

(** ** [pop]: the pipeline on the fetched rows *)

(** [[item for item in selectResults if item[0] not in excludes]] *)
Definition exclusion (excludes : list pyval) (selectResults : list pick)
    : list pick :=
  filter (fun item => negb (str_in_py (p_id item) excludes)) selectResults.

(** [[item ... if item[4] == 0] + [item ... if item[4] != 0]] *)
Definition urgency (selectResults : list pick) : list pick :=
  filter (fun item => p_status item =? 0) selectResults
  ++ filter (fun item => negb (p_status item =? 0)) selectResults.

(** [[item ... if item[4] == 0 or item[4] == 1]] *)
Definition busy_hiding (selectResults : list pick) : list pick :=
  filter (fun item => (p_status item =? 0) || (p_status item =? 1))
         selectResults.

(** The list [selectResults] holds when [pop] reaches its [return]. *)
Definition pop_stages (excludes : list pyval) (urgent hide_busy : bool)
    (fetched : list pick) : list pick :=
  let selectResults := exclusion excludes fetched in
  let selectResults := if urgent then urgency selectResults else selectResults in
  let selectResults := if hide_busy then busy_hiding selectResults
                       else selectResults in
  selectResults.

(** [if not excludes: excludes = []] *)
Definition default_excludes (excludes : pyval) : pyval :=
  if negb (truthy excludes) then PyList [] else excludes.

(** [pop(count, excludes, urgent, hide_busy)] as a relation between the world
    before, the outcome and the world after: the two assertions, then the
    query, whose rows come back in any order [order_by_ok] allows, then the
    list comprehensions and the slice [selectResults[0:count]]. *)
Inductive pop (count excludes urgent hide_busy : pyval) (w : world)
    : outcome (list pick) -> world -> Prop :=
| pop_invalid_count :
    type_of count <> TInt ->
    pop count excludes urgent hide_busy w
        (Raise (AssertionError "invalid arg: count")) w
| pop_invalid_excludes :
    type_of count = TInt ->
    type_of (default_excludes excludes) <> TList ->
    pop count excludes urgent hide_busy w
        (Raise (AssertionError "invalid arg: excludes")) w
| pop_return n ex fetched :
    count = PyInt n ->
    default_excludes excludes = PyList ex ->
    order_by_ok (select_from_user (w_db w)) fetched = true ->
    pop count excludes urgent hide_busy w
        (Ok (py_slice_to (pop_stages ex (truthy urgent) (truthy hide_busy) fetched) n))
        (logged SelectPop w).

(** ** [set_status], [reset_status] *)

(** [UPDATE user SET status = %s, status_since = NOW() WHERE id = %s] *)
Definition set_status_row (status user_id : pyval) (now : Z) (u : user_row)
    : user_row :=
  if str_eq_py (u_id u) user_id
  then mk_user (u_id u) (u_name u) (u_phone u) (u_role u) (u_available u)
               (sql_int status) now (u_pages u)
  else u.

Definition set_status (user_id status : pyval) : M unit :=
  found <- __contains__ user_id (PyBool false) ;;
  py_assert found "invalid arg: user_id" ;;
  py_assert (py_in_ints status [0; 1; 2]) "invalid arg: status" ;;
  execute_update UpdateSetStatus (set_status_row status user_id).

(** [UPDATE user SET status = 0, status_since = NOW()
     WHERE status != 0 AND DATEDIFF(NOW(), status_since) >= %s] *)
Definition stale (days now : Z) (u : user_row) : bool :=
  negb (u_status u =? 0) && (days <=? DATEDIFF now (u_status_since u)).

Definition reset_status_row (days now : Z) (u : user_row) : user_row :=
  if stale days now u
  then mk_user (u_id u) (u_name u) (u_phone u) (u_role u) (u_available u)
               0 now (u_pages u)
  else u.

Definition is_int (v : pyval) : bool := pytype_eqb (type_of v) TInt.

Definition reset_status (days : pyval) : M unit :=
  py_assert (is_int days) "invalid arg: days" ;;
  execute_update UpdateResetStatus (reset_status_row (sql_int days)).

(** ** One admissible [ORDER BY]: insertion sort on the key *)

Fixpoint insert_by_key (x : pick) (l : list pick) : list pick :=
  match l with
  | [] => [x]
  | y :: rest =>
      if key_leb x y then x :: l else y :: insert_by_key x rest
  end.

Fixpoint insertion_sort (l : list pick) : list pick :=
  match l with
  | [] => []
  | x :: rest => insert_by_key x (insertion_sort rest)
  end.

(** ** Predicates the properties are stated with *)

(** The data model's domain of the stored status: Idle, Busy, VeryBusy. *)
Definition status_in_domain (z : Z) : Prop := z = 0 \/ z = 1 \/ z = 2.

Definition status_invariant (db : database) : Prop :=
  forall u, In u (user db) -> status_in_domain (u_status u).

(** [lh] is the history record of maximum id. *)
Definition is_latest (db : database) (lh : history_row) : Prop :=
  In lh (history db) /\ forall r, In r (history db) -> h_id r <= h_id lh.

(** No assignment with a non-empty reviewer id started strictly after the
    end of [lh]. *)
Definition nothing_started_after (db : database) (lh : history_row) : Prop :=
  forall c, In c (current db) ->
            c_reviewerid c <> EmptyString -> c_start c <= h_end lh.

(** The anti-repeat condition on a reviewer id. *)
Definition anti_repeat (db : database) (rid : string) : Prop :=
  exists lh, is_latest db lh /\ h_reviewerid lh = rid
             /\ nothing_started_after db lh.

Definition key_le (a b : pick) : Prop :=
  p_current a < p_current b
  \/ (p_current a = p_current b /\ p_pages_diff a <= p_pages_diff b).

(** [a] occurs before [b] in [l]. *)
Definition before (a b : pick) (l : list pick) : Prop :=
  exists l1 l2 l3, l = l1 ++ a :: l2 ++ b :: l3.

(** One record changed, or not, by the timeout sweep. *)
Definition swept (days now : Z) (u u' : user_row) : Prop :=
  (u_status u <> 0 /\ days <= DATEDIFF now (u_status_since u) ->
   u' = mk_user (u_id u) (u_name u) (u_phone u) (u_role u) (u_available u)
                0 now (u_pages u))
  /\ (~ (u_status u <> 0 /\ days <= DATEDIFF now (u_status_since u)) ->
      u' = u).

(** ** Sample data *)

Definition user_A : user_row := mk_user "A" "Ann" "100" 1 1 0 0 10.
Definition user_B : user_row := mk_user "B" "Bob" "101" 1 1 0 0 12.
Definition user_C : user_row := mk_user "C" "Cid" "102" 1 1 1 0 10.
Definition user_D : user_row := mk_user "D" "Dee" "103" 0 1 0 0 3.
Definition user_E : user_row := mk_user "E" "Eve" "104" 1 0 2 0 7.
Definition user_F : user_row := mk_user "F" "Fay" "105" 1 1 2 0 30.

(** Three reviewers as in the specification's examples, an ordinary user, a
    withdrawn reviewer and a very busy one; [A] finished last and nothing
    started since. *)
Definition sample_db : database :=
  mk_db [user_A; user_B; user_C; user_D; user_E; user_F]
        [mk_current "C" 100]
        [mk_history 1 "B" 50; mk_history 2 "A" 200].

Definition sample_world : world := mk_world sample_db 864000 [].

Definition pick_A : pick := mk_pick "A" "Ann" "100" 1 (-1) 0 0.
Definition pick_B : pick := mk_pick "B" "Bob" "101" 1 0 2 0.
Definition pick_C : pick := mk_pick "C" "Cid" "102" 1 1 0 1.
Definition pick_F : pick := mk_pick "F" "Fay" "105" 1 2 20 0.

Definition sample_fetched : list pick := [pick_A; pick_B; pick_F; pick_C].

(** ** Predicates for the directory operations *)

(** A search string with none of the characters [LIKE] reads specially. *)
Fixpoint plainb (x : string) : bool :=
  match x with
  | EmptyString => true
  | String c x' =>
      negb (Ascii.eqb c "%"%char) && negb (Ascii.eqb c "_"%char)
      && negb (Ascii.eqb c "\"%char) && plainb x'
  end.

(** [x] occurs in [s]. *)
Definition occurs_in (x s : string) : Prop :=
  exists pre post, s = (pre ++ x ++ post)%string.

(** One record before and after [set_status] wrote [status] at [now] for the
    id [s]. *)
Definition status_written (status now : Z) (s : string) (u u' : user_row)
    : Prop :=
  (u_id u = s ->
   u' = mk_user (u_id u) (u_name u) (u_phone u) (u_role u) (u_available u)
                status now (u_pages u))
  /\ (u_id u <> s -> u' = u).

(** The columns no operation of the module writes. *)
Definition same_identity (u u' : user_row) : Prop :=
  u_id u' = u_id u /\ u_name u' = u_name u /\ u_phone u' = u_phone u
  /\ u_role u' = u_role u /\ u_available u' = u_available u
  /\ u_pages u' = u_pages u.

(** ** Lemmas on the helpers *)

Lemma sample_select :
  select_from_user sample_db = [pick_A; pick_B; pick_C; pick_F].
Proof. reflexivity. Qed.

Lemma sample_fetched_ok :
  order_by_ok (select_from_user sample_db) sample_fetched = true.
Proof. reflexivity. Qed.

Lemma sample_insertion_sort :
  insertion_sort (select_from_user sample_db) = sample_fetched.
Proof. reflexivity. Qed.

Lemma py_slice_to_samples :
  py_slice_to [1; 2; 3] 2 = [1; 2]
  /\ py_slice_to [1; 2; 3] 5 = [1; 2; 3]
  /\ py_slice_to [1; 2; 3] 0 = []
  /\ py_slice_to [1; 2; 3] (-1) = [1; 2]
  /\ py_slice_to [1; 2; 3] (-5) = [].
Proof. repeat split. Qed.

Lemma like_samples :
  like "%a_c%" "xxabcxx" = true
  /\ like "%a_c%" "xxacxx" = false
  /\ like (contains_pattern "") "anything" = true
  /\ like (contains_pattern "0%") "50%" = true
  /\ like (contains_pattern "\%") "50" = false.
Proof. repeat split. Qed.

Lemma sample_search :
  search (PyStr "") (PyStr "e") (PyStr "10") (PyBool true) sample_world
  = (Ok [], logged SelectSearch sample_world)
  /\ search (PyStr "") (PyStr "e") (PyStr "10") (PyBool false) sample_world
     = (Ok [("D"%string, "Dee"%string, "103"%string, 0, 0)],
        logged SelectSearch sample_world)
  /\ search (PyInt 1) (PyStr "") (PyStr "") (PyBool false) sample_world
     = (Raise (AssertionError "invalid arg: user_id"), sample_world).
Proof. repeat split. Qed.

(** *** Permutations and sortedness *)

Lemma remove_one_perm x l l' :
  remove_one x l = Some l' -> Permutation l (x :: l').
Proof.
  revert l'. induction l as [|y rest IH]; simpl; intros l' H.
  - discriminate.
  - destruct (pick_eq_dec x y) as [->|Hne].
    + injection H as <-. apply Permutation_refl.
    + destruct (remove_one x rest) as [r|] eqn:E; simpl in H; [|discriminate].
      injection H as <-.
      eapply perm_trans; [apply perm_skip, IH; reflexivity | apply perm_swap].
Qed.

Lemma remove_one_in x l :
  In x l -> exists l', remove_one x l = Some l'.
Proof.
  induction l as [|y rest IH]; simpl; intros H.
  - contradiction.
  - destruct (pick_eq_dec x y) as [->|Hne]; [eauto|].
    destruct H as [->|H]; [congruence|].
    destruct (IH H) as [l' ->]. simpl. eauto.
Qed.

Lemma permb_sound l1 : forall l2, permb l1 l2 = true -> Permutation l1 l2.
Proof.
  induction l1 as [|x rest IH]; simpl; intros l2 H.
  - destruct l2; [constructor | discriminate].
  - destruct (remove_one x l2) as [l2'|] eqn:E; [|discriminate].
    apply remove_one_perm in E. apply IH in H.
    apply Permutation_sym in E.
    eapply perm_trans; [apply perm_skip, H | exact E].
Qed.

Lemma permb_complete l1 : forall l2, Permutation l1 l2 -> permb l1 l2 = true.
Proof.
  induction l1 as [|x rest IH]; simpl; intros l2 H.
  - apply Permutation_nil in H. subst. reflexivity.
  - assert (Hin : In x l2) by (eapply Permutation_in; [exact H | left; reflexivity]).
    destruct (remove_one_in x l2 Hin) as [l2' E]. rewrite E.
    apply IH. apply remove_one_perm in E.
    eapply Permutation_cons_inv. eapply perm_trans; [exact H | exact E].
Qed.

Lemma key_leb_le a b : key_leb a b = true <-> key_le a b.
Proof.
  unfold key_leb, key_le.
  rewrite orb_true_iff, andb_true_iff, Z.ltb_lt, Z.eqb_eq, Z.leb_le.
  reflexivity.
Qed.

Lemma key_le_trans a b c : key_le a b -> key_le b c -> key_le a c.
Proof. unfold key_le. lia. Qed.

Lemma key_le_total a b : key_le a b \/ key_le b a.
Proof. unfold key_le. lia. Qed.

Lemma sortedb_sorted l : sortedb l = true -> StronglySorted key_le l.
Proof.
  intros H. apply Sorted_StronglySorted.
  - intros a b c. apply key_le_trans.
  - induction l as [|a rest IH]; [constructor|].
    simpl in H. destruct rest as [|b rest'].
    + repeat constructor.
    + apply andb_true_iff in H as [Hab Hrest].
      constructor; [apply IH, Hrest | constructor; apply key_leb_le, Hab].
Qed.

Lemma insert_by_key_perm x l : Permutation (x :: l) (insert_by_key x l).
Proof.
  induction l as [|y rest IH]; simpl.
  - apply Permutation_refl.
  - destruct (key_leb x y); [apply Permutation_refl|].
    eapply perm_trans; [apply perm_swap | apply perm_skip, IH].
Qed.

Lemma insertion_sort_perm l : Permutation l (insertion_sort l).
Proof.
  induction l as [|x rest IH]; simpl.
  - constructor.
  - eapply perm_trans; [apply perm_skip, IH | apply insert_by_key_perm].
Qed.

Lemma insert_by_key_sortedb x l :
  sortedb l = true -> sortedb (insert_by_key x l) = true.
Proof.
  induction l as [|y rest IH]; intros H; [reflexivity|].
  simpl insert_by_key. destruct (key_leb x y) eqn:E.
  - change (key_leb x y && sortedb (y :: rest) = true). now rewrite E.
  - assert (Hyx : key_leb y x = true).
    { apply key_leb_le. destruct (key_le_total x y) as [K|K]; [|exact K].
      apply key_leb_le in K. congruence. }
    assert (Hrest : sortedb rest = true).
    { simpl in H. destruct rest; [reflexivity|].
      now apply andb_true_iff in H. }
    specialize (IH Hrest).
    destruct rest as [|z rest'].
    + simpl. now rewrite Hyx.
    + simpl in H. apply andb_true_iff in H as [Hyz _].
      simpl insert_by_key in *. destruct (key_leb x z).
      * change (key_leb y x && sortedb (x :: z :: rest') = true).
        now rewrite Hyx.
      * change (key_leb y z && sortedb (z :: insert_by_key x rest') = true).
        now rewrite Hyz.
Qed.

Lemma insertion_sort_sortedb l : sortedb (insertion_sort l) = true.
Proof.
  induction l as [|x rest IH]; [reflexivity|].
  simpl. now apply insert_by_key_sortedb.
Qed.

(** The server always has an answer: insertion sort is one. *)
Lemma order_by_ok_insertion_sort l : order_by_ok l (insertion_sort l) = true.
Proof.
  unfold order_by_ok. apply andb_true_iff. split.
  - apply permb_complete, insertion_sort_perm.
  - apply insertion_sort_sortedb.
Qed.

Lemma order_by_ok_inv selected fetched :
  order_by_ok selected fetched = true ->
  Permutation selected fetched /\ StronglySorted key_le fetched.
Proof.
  unfold order_by_ok. intros H. apply andb_true_iff in H as [Hp Hs].
  split; [apply permb_sound, Hp | apply sortedb_sorted, Hs].
Qed.

Lemma fetched_in db fetched item :
  order_by_ok (select_from_user db) fetched = true ->
  (In item fetched <->
   exists u, In u (user db) /\ eligible u = true /\ item = select_row db u).
Proof.
  intros H. apply order_by_ok_inv in H as [Hp _]. split.
  - intros Hin. apply Permutation_sym in Hp.
    apply (Permutation_in _ Hp) in Hin.
    unfold select_from_user in Hin. apply in_map_iff in Hin as (u & <- & Hu).
    apply filter_In in Hu as [Hu He]. eauto.
  - intros (u & Hu & He & ->). apply (Permutation_in _ Hp).
    unfold select_from_user. apply in_map, filter_In. auto.
Qed.

(** *** The latest history record and the anti-repeat flag *)

Lemma latest_history_max h m :
  latest_history h = Some m ->
  In m h /\ forall r, In r h -> h_id r <= h_id m.
Proof.
  revert m. induction h as [|r rest IH]; simpl; intros m H; [discriminate|].
  destruct (latest_history rest) as [m'|] eqn:E.
  - destruct (IH m' eq_refl) as [Hin Hmax].
    destruct (h_id r <? h_id m') eqn:Lt; injection H as <-.
    + apply Z.ltb_lt in Lt. split; [now right|].
      intros x [<-|Hx]; [lia | now apply Hmax].
    + apply Z.ltb_ge in Lt. split; [now left|].
      intros x [<-|Hx]; [lia | specialize (Hmax x Hx); lia].
  - injection H as <-. destruct rest as [|r' rest'].
    + split; [now left|]. intros x [<-|[]]. lia.
    + simpl in E. destruct (latest_history rest'); [destruct (_ <? _)|]; discriminate.
Qed.

Lemma latest_history_some h : h <> [] -> exists m, latest_history h = Some m.
Proof.
  destruct h as [|r rest]; [congruence|]. intros _. simpl.
  destruct (latest_history rest) as [m|]; [destruct (_ <? _)|]; eauto.
Qed.

Lemma NoDup_map_inj {A B : Type} (f : A -> B) l a b :
  NoDup (map f l) -> In a l -> In b l -> f a = f b -> a = b.
Proof.
  induction l as [|x rest IH]; simpl; intros Hnd Ha Hb Hf; [contradiction|].
  inversion Hnd as [|? ? Hnotin Hnd']; subst.
  destruct Ha as [->|Ha], Hb as [->|Hb]; auto.
  - exfalso. apply Hnotin. rewrite Hf. now apply in_map.
  - exfalso. apply Hnotin. rewrite <- Hf. now apply in_map.
Qed.

Lemma is_latest_unique db lh :
  NoDup (map h_id (history db)) ->
  is_latest db lh -> latest_history (history db) = Some lh.
Proof.
  intros Hnd [Hin Hmax].
  destruct (latest_history_some (history db)) as [m Hm].
  { intros E. rewrite E in Hin. contradiction. }
  rewrite Hm. f_equal.
  destruct (latest_history_max _ _ Hm) as [Hmin Hmmax].
  apply (NoDup_map_inj h_id (history db)); auto.
  specialize (Hmax m Hmin). specialize (Hmmax lh Hin). lia.
Qed.

Lemma started_after_false db lh :
  started_after (current db) lh = false <-> nothing_started_after db lh.
Proof.
  unfold started_after, nothing_started_after. split.
  - intros H c Hc Hne.
    destruct (Z.le_gt_cases (c_start c) (h_end lh)) as [L|G]; [exact L|].
    exfalso. assert (X : existsb (fun c0 => (h_end lh <? c_start c0)
              && negb (String.eqb (c_reviewerid c0) EmptyString)) (current db) = true).
    { apply existsb_exists. exists c. split; [exact Hc|].
      apply andb_true_iff. split; [apply Z.ltb_lt; lia|].
      apply negb_true_iff, String.eqb_neq, Hne. }
    congruence.
  - intros H. apply not_true_is_false. intros E.
    apply existsb_exists in E as (c & Hc & E).
    apply andb_true_iff in E as [Lt Ne].
    apply Z.ltb_lt in Lt. apply negb_true_iff, String.eqb_neq in Ne.
    specialize (H c Hc Ne). lia.
Qed.

(** The sub-query returns a reviewer id exactly under the anti-repeat
    condition, when history ids are distinct. *)
Lemma latest_reviewerid_spec db rid :
  NoDup (map h_id (history db)) ->
  (latest_reviewerid db = Some rid <-> anti_repeat db rid).
Proof.
  intros Hnd. unfold latest_reviewerid, anti_repeat. split.
  - destruct (latest_history (history db)) as [lh|] eqn:E; [|discriminate].
    destruct (started_after (current db) lh) eqn:S; [discriminate|].
    intros H. injection H as <-. exists lh. split; [|split].
    + apply latest_history_max in E. exact E.
    + reflexivity.
    + now apply started_after_false.
  - intros (lh & Hl & <- & Hn).
    rewrite (is_latest_unique db lh Hnd Hl).
    apply started_after_false in Hn. now rewrite Hn.
Qed.

Lemma effective_status_cases db u :
  (effective_status db u = -1 /\ latest_reviewerid db = Some (u_id u))
  \/ (effective_status db u = u_status u
      /\ latest_reviewerid db <> Some (u_id u)).
Proof.
  unfold effective_status.
  destruct (latest_reviewerid db) as [rid|]; [|right; split; congruence].
  destruct (String.eqb (u_id u) rid) eqn:E.
  - apply String.eqb_eq in E. subst. now left.
  - apply String.eqb_neq in E. right. split; congruence.
Qed.

(** *** [IFNULL(current, 0)] is the number of the reviewer's assignments *)

Lemma find_group (f : string -> Z) id rids :
  find (fun g : string * Z => String.eqb id (fst g))
       (map (fun rid => (rid, f rid)) rids)
  = if in_dec string_dec id rids then Some (id, f id) else None.
Proof.
  induction rids as [|r rest IH]; simpl; [reflexivity|].
  destruct (String.eqb id r) eqn:E.
  - apply String.eqb_eq in E. subst.
    destruct (string_dec r r); [reflexivity | congruence].
  - apply String.eqb_neq in E. rewrite IH.
    destruct (string_dec r id); [congruence|].
    destruct (in_dec string_dec id rest); reflexivity.
Qed.

Lemma current_count db u :
  p_current (select_row db u)
  = Z.of_nat (List.length
      (filter (fun c => String.eqb (c_reviewerid c) (u_id u)) (current db))).
Proof.
  simpl. unfold joined_current, temp_count. rewrite find_group.
  destruct (in_dec string_dec (u_id u) _) as [Hin|Hnot]; simpl; [reflexivity|].
  rewrite nodup_In in Hnot.
  replace (filter _ (current db)) with (@nil current_row); [reflexivity|].
  symmetry. induction (current db) as [|c rest IH]; simpl; [reflexivity|].
  simpl in Hnot. destruct (String.eqb (c_reviewerid c) (u_id u)) eqn:E.
  - apply String.eqb_eq in E. exfalso. apply Hnot. now left.
  - apply IH. intros H. apply Hnot. now right.
Qed.

(** *** The pipeline of [pop] *)

Lemma pop_Ok_inv count excludes urgent hide_busy w result w' :
  pop count excludes urgent hide_busy w (Ok result) w' ->
  exists n ex fetched,
    count = PyInt n /\ default_excludes excludes = PyList ex
    /\ order_by_ok (select_from_user (w_db w)) fetched = true
    /\ result = py_slice_to
                  (pop_stages ex (truthy urgent) (truthy hide_busy) fetched) n
    /\ w' = logged SelectPop w.
Proof.
  intros H. inversion H; subst. exists n, ex, fetched. auto.
Qed.

Lemma py_slice_to_firstn {A : Type} (l : list A) stop :
  exists k, py_slice_to l stop = firstn k l.
Proof. unfold py_slice_to. destruct (stop <? 0); eauto. Qed.

Lemma py_slice_to_In {A : Type} (l : list A) stop x :
  In x (py_slice_to l stop) -> In x l.
Proof.
  destruct (py_slice_to_firstn l stop) as [k ->]. intros H.
  rewrite <- (firstn_skipn k l). apply in_or_app. now left.
Qed.

Lemma urgency_perm l : Permutation l (urgency l).
Proof.
  unfold urgency. induction l as [|x rest IH]; simpl; [constructor|].
  destruct (p_status x =? 0); simpl.
  - now apply perm_skip.
  - apply Permutation_cons_app, IH.
Qed.

Lemma urgency_In l x : In x (urgency l) <-> In x l.
Proof.
  split; intros H.
  - eapply Permutation_in; [apply Permutation_sym, urgency_perm | exact H].
  - eapply Permutation_in; [apply urgency_perm | exact H].
Qed.

Lemma pop_stages_In ex urgent hide_busy fetched x :
  In x (pop_stages ex urgent hide_busy fetched) ->
  In x fetched
  /\ str_in_py (p_id x) ex = false
  /\ (hide_busy = true -> p_status x = 0 \/ p_status x = 1).
Proof.
  unfold pop_stages. intros H.
  assert (H1 : In x (if urgent then urgency (exclusion ex fetched)
                     else exclusion ex fetched)
               /\ (hide_busy = true -> p_status x = 0 \/ p_status x = 1)).
  { destruct hide_busy.
    - unfold busy_hiding in H. apply filter_In in H as [H Hs].
      split; [exact H|]. intros _.
      apply orb_true_iff in Hs as [E|E]; apply Z.eqb_eq in E; auto.
    - split; [exact H | discriminate]. }
  destruct H1 as [H1 Hs].
  assert (H2 : In x (exclusion ex fetched)).
  { destruct urgent; [now apply urgency_In | exact H1]. }
  unfold exclusion in H2. apply filter_In in H2 as [H2 Hx].
  apply negb_true_iff in Hx. auto.
Qed.

(** ** The properties *)

(** C1. In the snapshot [pop] filters (the rows [fetched] of the query), the
    rows are exactly those of the eligible reviewers; the status of a
    reviewer's row is the AntiRepeat sentinel [-1] if and only if the
    reviewer's id is the [reviewerid] of the history record of maximum id and
    no assignment with a non-empty reviewer id started strictly after that
    record's end; for every other reviewer it is the stored status.  History
    ids are distinct and stored statuses are in [{0, 1, 2}], as the data
    model has them. *)
Theorem effective_status_anti_repeat db fetched :
  NoDup (map h_id (history db)) ->
  status_invariant db ->
  order_by_ok (select_from_user db) fetched = true ->
  (forall item, In item fetched ->
     exists u, In u (user db) /\ eligible u = true /\ item = select_row db u)
  /\ (forall u, In u (user db) -> eligible u = true ->
        In (select_row db u) fetched
        /\ (p_status (select_row db u) = -1 <-> anti_repeat db (u_id u))
        /\ (~ anti_repeat db (u_id u) ->
            p_status (select_row db u) = u_status u)).
Proof.
  intros Hnd Hinv Hok. split.
  - intros item Hin. now apply (fetched_in db fetched item Hok).
  - intros u Hu He. split; [|split].
    + apply (fetched_in db fetched _ Hok). eauto.
    + simpl. rewrite <- (latest_reviewerid_spec db (u_id u) Hnd).
      destruct (effective_status_cases db u) as [[E L]|[E L]]; rewrite E.
      * tauto.
      * split; [|congruence]. intros Hs.
        destruct (Hinv u Hu) as [K|[K|K]]; lia.
    + intros Hna. simpl.
      rewrite <- (latest_reviewerid_spec db (u_id u) Hnd) in Hna.
      destruct (effective_status_cases db u) as [[E L]|[E L]]; tauto.
Qed.

Lemma sample_history_nodup : NoDup (map h_id (history sample_db)).
Proof.
  simpl. repeat constructor; simpl; intuition discriminate.
Defined.

Lemma sample_status_invariant : status_invariant sample_db.
Proof.
  intros u Hu. unfold status_in_domain. simpl in Hu.
  repeat (destruct Hu as [<-|Hu]; [simpl; tauto|]). contradiction.
Defined.

Lemma effective_status_anti_repeat_witness :
  NoDup (map h_id (history sample_db))
  /\ status_invariant sample_db
  /\ order_by_ok (select_from_user sample_db) sample_fetched = true
  /\ (p_status (select_row sample_db user_A) = -1
      <-> anti_repeat sample_db (u_id user_A)).
Proof.
  split; [exact sample_history_nodup|].
  split; [exact sample_status_invariant|].
  split; [reflexivity|].
  apply (proj2 (effective_status_anti_repeat sample_db sample_fetched
                  sample_history_nodup sample_status_invariant eq_refl)
               user_A).
  - simpl. tauto.
  - reflexivity.
Defined.

(** C2. With a true [hide_busy], every entry [pop] returns has status Idle
    [0] or Busy [1], whatever [count] is: no row of a stored-VeryBusy
    reviewer is returned, by row and (ids being a key) by id, and no returned
    entry carries the id of the AntiRepeat-flagged reviewer. *)
Theorem hide_busy_only_idle_or_busy
    count excludes urgent hide_busy w result w' :
  pop count excludes urgent hide_busy w (Ok result) w' ->
  truthy hide_busy = true ->
  (forall item, In item result -> p_status item = 0 \/ p_status item = 1)
  /\ (forall u, In u (user (w_db w)) -> u_status u = 2 ->
        ~ In (select_row (w_db w) u) result)
  /\ (NoDup (map u_id (user (w_db w))) ->
      forall u, In u (user (w_db w)) -> u_status u = 2 ->
        ~ In (u_id u) (map p_id result))
  /\ (NoDup (map h_id (history (w_db w))) ->
      forall rid, anti_repeat (w_db w) rid -> ~ In rid (map p_id result)).
Proof.
  intros Hpop Hhide.
  apply pop_Ok_inv in Hpop as (n & ex & fetched & _ & _ & Hok & -> & _).
  rewrite Hhide.
  assert (Hres : forall item,
            In item (py_slice_to (pop_stages ex (truthy urgent) true fetched) n) ->
            In item fetched /\ (p_status item = 0 \/ p_status item = 1)).
  { intros item Hin. apply py_slice_to_In, pop_stages_In in Hin.
    destruct Hin as (Hf & _ & Hs). auto. }
  assert (Hrow : forall u, u_status u = 2 ->
            ~ In (select_row (w_db w) u)
                 (py_slice_to (pop_stages ex (truthy urgent) true fetched) n)).
  { intros u H2 Hin. apply Hres in Hin as [_ Hs]. simpl in Hs.
    destruct (effective_status_cases (w_db w) u) as [[E _]|[E _]];
      rewrite E in Hs; lia. }
  split; [|split; [|split]].
  - intros item Hin. now apply Hres.
  - intros u _ H2. now apply Hrow.
  - intros Hnd u Hu H2 Hin. apply in_map_iff in Hin as (item & Hid & Hin).
    assert (Hf := proj1 (Hres item Hin)).
    apply (fetched_in _ _ _ Hok) in Hf as (u' & Hu' & _ & ->).
    simpl in Hid.
    assert (u' = u) by (apply (NoDup_map_inj u_id (user (w_db w))); auto).
    subst u'. now apply (Hrow u H2).
  - intros Hnd rid Har Hin. apply in_map_iff in Hin as (item & Hid & Hin).
    destruct (Hres item Hin) as [Hf Hs].
    apply (fetched_in _ _ _ Hok) in Hf as (u & _ & _ & ->).
    simpl in Hid, Hs. subst rid.
    apply (latest_reviewerid_spec _ _ Hnd) in Har.
    destruct (effective_status_cases (w_db w) u) as [[E _]|[_ L]];
      [rewrite E in Hs; lia | congruence].
Qed.

Lemma sample_pop_hide :
  pop (PyInt 2) PyNone (PyBool false) (PyBool true) sample_world
      (Ok [pick_B; pick_C]) (logged SelectPop sample_world).
Proof.
  exact (pop_return (PyInt 2) PyNone (PyBool false) (PyBool true) sample_world
           2 [] sample_fetched eq_refl eq_refl eq_refl).
Defined.

Lemma hide_busy_only_idle_or_busy_witness :
  pop (PyInt 2) PyNone (PyBool false) (PyBool true) sample_world
      (Ok [pick_B; pick_C]) (logged SelectPop sample_world)
  /\ truthy (PyBool true) = true
  /\ forall item, In item [pick_B; pick_C] ->
       p_status item = 0 \/ p_status item = 1.
Proof.
  split; [exact sample_pop_hide|]. split; [reflexivity|].
  exact (proj1 (hide_busy_only_idle_or_busy _ _ _ _ _ _ _
                  sample_pop_hide eq_refl)).
Defined.

(** *** Running the directory operations *)

Lemma fetchone_exists {A B : Type} (f : A -> B) p l :
  match fetchone (map f (filter p l)) with Some _ => true | None => false end
  = existsb p l.
Proof.
  induction l as [|x rest IH]; simpl; [reflexivity|].
  destruct (p x); simpl; [reflexivity | exact IH].
Qed.

Lemma contains_run user_id only_reviewer w :
  __contains__ user_id only_reviewer w
  = if is_str user_id
    then (Ok (existsb (contains_where (truthy only_reviewer) user_id)
                      (user (w_db w))),
          logged SelectContains w)
    else (Raise (AssertionError "invalid arg: user_id"), w).
Proof.
  unfold __contains__, bind, py_assert, execute_select, ret, raise.
  destruct (is_str user_id); [|reflexivity].
  now rewrite fetchone_exists.
Qed.

Lemma set_status_run user_id status w :
  set_status user_id status w
  = if is_str user_id then
      if existsb (contains_where false user_id) (user (w_db w)) then
        if py_in_ints status [0; 1; 2] then
          execute_update UpdateSetStatus (set_status_row status user_id)
                         (logged SelectContains w)
        else (Raise (AssertionError "invalid arg: status"),
              logged SelectContains w)
      else (Raise (AssertionError "invalid arg: user_id"),
            logged SelectContains w)
    else (Raise (AssertionError "invalid arg: user_id"), w).
Proof.
  unfold set_status, bind. rewrite contains_run.
  destruct (is_str user_id); [|reflexivity]. simpl truthy.
  destruct (existsb _ _); [|reflexivity].
  unfold py_assert, ret, raise.
  destruct (py_in_ints status [0; 1; 2]); reflexivity.
Qed.

Lemma reset_status_run days w :
  reset_status days w
  = if is_int days
    then execute_update UpdateResetStatus (reset_status_row (sql_int days)) w
    else (Raise (AssertionError "invalid arg: days"), w).
Proof.
  unfold reset_status, bind, py_assert, ret, raise.
  destruct (is_int days); reflexivity.
Qed.

Lemma fetch_run user_id w :
  fetch user_id w
  = if is_str user_id
    then (Ok (fetchone (map select_user_columns
                (filter (fun u => str_eq_py (u_id u) user_id) (user (w_db w))))),
          logged SelectFetch w)
    else (Raise (AssertionError "invalid arg: user_id"), w).
Proof.
  unfold fetch, bind, py_assert, execute_select, ret, raise.
  destruct (is_str user_id); reflexivity.
Qed.

Lemma search_db user_id name phone only_reviewer w :
  w_db (snd (search user_id name phone only_reviewer w)) = w_db w.
Proof.
  unfold search, bind, py_assert, execute_select, ret, raise.
  destruct (is_str user_id), (is_str name), (is_str phone); reflexivity.
Qed.

Lemma pop_db count excludes urgent hide_busy w out w' :
  pop count excludes urgent hide_busy w out w' -> w_db w' = w_db w.
Proof. intros H. inversion H; subst; reflexivity. Qed.

Lemma contains_where_spec user_id u :
  contains_where false user_id u = true
  <-> u_available u = 1 /\ user_id = PyStr (u_id u).
Proof.
  unfold contains_where. rewrite andb_true_r, andb_true_iff, Z.eqb_eq.
  destruct user_id; simpl; try (split; [intros [_ H]|intros [_ H]]; discriminate).
  rewrite String.eqb_eq. split; intros [H1 H2]; split; congruence.
Qed.

Lemma py_in_ints_domain n :
  py_in_ints (PyInt n) [0; 1; 2] = true <-> status_in_domain n.
Proof.
  unfold py_in_ints, status_in_domain. simpl.
  rewrite !orb_true_iff, !Z.eqb_eq. intuition discriminate.
Qed.

Lemma py_in_ints_sql_int status :
  py_in_ints status [0; 1; 2] = true -> status_in_domain (sql_int status).
Proof.
  unfold py_in_ints, status_in_domain. simpl. rewrite !orb_true_iff.
  destruct status as [|b|n|s|l]; simpl; try intuition discriminate.
  - destruct b; simpl; auto.
  - rewrite !Z.eqb_eq. intuition discriminate.
Qed.

(** C3 (amended). [set_status] fails on its existence check, with the
    message [invalid arg: user_id], exactly when no record with
    [available = 1] has the given id: the role is not looked at.  Whenever
    [set_status] fails, on this check or on the status check, the tables are
    left as they were. *)
Theorem set_status_not_found user_id status w :
  (fst (set_status user_id status w)
     = Raise (AssertionError "invalid arg: user_id")
   <-> ~ exists u, In u (user (w_db w))
                   /\ u_available u = 1 /\ user_id = PyStr (u_id u))
  /\ (forall e, fst (set_status user_id status w) = Raise e ->
        w_db (snd (set_status user_id status w)) = w_db w).
Proof.
  rewrite set_status_run. split.
  - destruct (is_str user_id) eqn:Hs.
    + destruct (existsb _ _) eqn:Hex.
      * apply existsb_exists in Hex as (u & Hu & Hc).
        apply contains_where_spec in Hc.
        split.
        -- destruct (py_in_ints status [0; 1; 2]); simpl; discriminate.
        -- intros Hno. exfalso. apply Hno. exists u. tauto.
      * split; [|reflexivity]. intros _ (u & Hu & Hc).
        assert (X : existsb (contains_where false user_id) (user (w_db w)) = true).
        { apply existsb_exists. exists u. split; [exact Hu|].
          now apply contains_where_spec. }
        congruence.
    + split; [|reflexivity]. intros _ (u & _ & _ & ->). discriminate.
  - intros e.
    destruct (is_str user_id); [|reflexivity].
    destruct (existsb _ _); [|reflexivity].
    destruct (py_in_ints status [0; 1; 2]); [discriminate | reflexivity].
Qed.

(** C3 as stated fails: [D] is an ordinary user ([role = 0]), not an eligible
    reviewer, and [set_status] does not fail on it but writes the status. *)
Lemma set_status_ordinary_user_counterexample :
  In user_D (user sample_db)
  /\ (forall u, In u (user sample_db) -> u_id u = u_id user_D ->
        eligible u = false)
  /\ set_status (PyStr "D") (PyInt 1) sample_world
     = (Ok tt,
        mk_world
          (mk_db [user_A; user_B; user_C;
                  mk_user "D" "Dee" "103" 0 1 1 864000 3; user_E; user_F]
                 (current sample_db) (history sample_db))
          864000 [SelectContains; UpdateSetStatus]).
Proof.
  split; [simpl; tauto|]. split; [|reflexivity].
  intros u Hu Hid. simpl in Hu.
  repeat (destruct Hu as [<-|Hu]; [first [reflexivity | discriminate Hid]|]).
  contradiction.
Qed.

(** *** The slice [selectResults[0:count]] *)

Lemma py_slice_to_negative {A : Type} (l : list A) stop :
  stop < 0 ->
  py_slice_to l stop = firstn (List.length l - Z.to_nat (- stop)) l.
Proof.
  intros H. unfold py_slice_to.
  destruct (stop <? 0) eqn:E; [|apply Z.ltb_ge in E; lia].
  f_equal. lia.
Qed.

Lemma py_slice_to_length {A : Type} (l : list A) stop :
  (List.length (py_slice_to l stop) <= List.length l)%nat
  /\ (0 <= stop -> Z.of_nat (List.length (py_slice_to l stop)) <= stop).
Proof.
  unfold py_slice_to. destruct (stop <? 0) eqn:E.
  - apply Z.ltb_lt in E. rewrite length_firstn. split; lia.
  - rewrite length_firstn. split; lia.
Qed.

(** C4 (amended). [pop] checks the types of [count] and [excludes] and
    nothing else.  When [type(count)] is not [int], or [excludes] is truthy
    and not a list, it raises an [AssertionError] with no statement executed
    and the world untouched.  Otherwise it raises nothing, whatever the sign
    of [count]: it runs its query and returns a slice of the filtered rows;
    for a negative [count] that slice is the filtered list without its last
    [-count] entries. *)
Theorem pop_argument_checks count excludes urgent hide_busy w out w' :
  pop count excludes urgent hide_busy w out w' ->
  (type_of count <> TInt \/ type_of (default_excludes excludes) <> TList ->
   (exists msg, out = Raise (AssertionError msg)) /\ w' = w)
  /\ (type_of count = TInt -> type_of (default_excludes excludes) = TList ->
      exists n ex fetched,
        count = PyInt n /\ default_excludes excludes = PyList ex
        /\ order_by_ok (select_from_user (w_db w)) fetched = true
        /\ out = Ok (py_slice_to
                       (pop_stages ex (truthy urgent) (truthy hide_busy) fetched) n)
        /\ w' = logged SelectPop w
        /\ (n < 0 ->
            py_slice_to (pop_stages ex (truthy urgent) (truthy hide_busy) fetched) n
            = firstn (List.length
                        (pop_stages ex (truthy urgent) (truthy hide_busy) fetched)
                      - Z.to_nat (- n))
                     (pop_stages ex (truthy urgent) (truthy hide_busy) fetched))).
Proof.
  intros H. inversion H as [Hc | Hc He | n ex fetched Hc He Hok]; subst.
  - split; [eauto | congruence].
  - split; [eauto | congruence].
  - split.
    + rewrite He. simpl. intros [K|K]; congruence.
    + intros _ _. exists n, ex, fetched.
      repeat split; auto. apply py_slice_to_negative.
Qed.

Lemma sample_pop_negative :
  pop (PyInt (-1)) PyNone (PyBool false) (PyBool true) sample_world
      (Ok [pick_B]) (logged SelectPop sample_world).
Proof.
  exact (pop_return (PyInt (-1)) PyNone (PyBool false) (PyBool true)
           sample_world (-1) [] sample_fetched eq_refl eq_refl eq_refl).
Defined.

Lemma pop_argument_checks_witness :
  pop (PyInt (-1)) PyNone (PyBool false) (PyBool true) sample_world
      (Ok [pick_B]) (logged SelectPop sample_world)
  /\ (type_of (PyInt (-1)) = TInt ->
      type_of (default_excludes PyNone) = TList ->
      exists n ex fetched,
        PyInt (-1) = PyInt n /\ default_excludes PyNone = PyList ex
        /\ order_by_ok (select_from_user (w_db sample_world)) fetched = true
        /\ Ok [pick_B]
           = Ok (py_slice_to
                   (pop_stages ex (truthy (PyBool false)) (truthy (PyBool true))
                               fetched) n)
        /\ logged SelectPop sample_world = logged SelectPop sample_world
        /\ (n < 0 ->
            py_slice_to
              (pop_stages ex (truthy (PyBool false)) (truthy (PyBool true))
                          fetched) n
            = firstn (List.length
                        (pop_stages ex (truthy (PyBool false))
                                    (truthy (PyBool true)) fetched)
                      - Z.to_nat (- n))
                     (pop_stages ex (truthy (PyBool false))
                                 (truthy (PyBool true)) fetched))).
Proof.
  split; [exact sample_pop_negative|].
  exact (proj2 (pop_argument_checks _ _ _ _ _ _ _ sample_pop_negative)).
Defined.

(** C4 as stated fails: [pop] with [count = -1] is not rejected.  Every run
    executes the query and returns a list; here the filtered rows are
    [[B; C]] and the call returns [[B]]. *)
Lemma pop_negative_count_counterexample :
  pop (PyInt (-1)) PyNone (PyBool false) (PyBool true) sample_world
      (Ok [pick_B]) (logged SelectPop sample_world)
  /\ w_log (logged SelectPop sample_world) = [SelectPop]
  /\ forall out w',
       pop (PyInt (-1)) PyNone (PyBool false) (PyBool true) sample_world out w' ->
       (exists result, out = Ok result) /\ w_log w' = [SelectPop].
Proof.
  split; [exact sample_pop_negative|]. split; [reflexivity|].
  intros out w' H. inversion H as [Hc | Hc He | n ex fetched Hc He Hok]; subst.
  - exfalso. now apply Hc.
  - exfalso. now apply He.
  - split; [eauto | reflexivity].
Qed.

(** *** Order under filtering *)

Lemma StronglySorted_filter {A : Type} (R : A -> A -> Prop) p l :
  StronglySorted R l -> StronglySorted R (filter p l).
Proof.
  induction 1 as [|a l Hl IH Ha]; simpl; [constructor|].
  destruct (p a); [|exact IH].
  constructor; [exact IH|].
  apply Forall_forall. intros x Hx. apply filter_In in Hx as [Hx _].
  rewrite Forall_forall in Ha. now apply Ha.
Qed.

Lemma filter_eq_app {A : Type} (p : A -> bool) l : forall r1 r2,
  filter p l = r1 ++ r2 ->
  exists l1 l2, l = l1 ++ l2 /\ filter p l1 = r1 /\ filter p l2 = r2.
Proof.
  induction l as [|x rest IH]; simpl; intros r1 r2 H.
  - destruct r1; [|discriminate]. destruct r2; [|discriminate].
    exists [], []. auto.
  - destruct (p x) eqn:E.
    + destruct r1 as [|y r1'].
      * exists [], (x :: rest). simpl. rewrite E. auto.
      * simpl in H. injection H as <- H.
        destruct (IH _ _ H) as (l1 & l2 & -> & <- & <-).
        exists (x :: l1), l2. simpl. rewrite E. auto.
    + destruct (IH _ _ H) as (l1 & l2 & -> & <- & <-).
      exists (x :: l1), l2. simpl. rewrite E. auto.
Qed.

Lemma filter_eq_cons {A : Type} (p : A -> bool) l a r :
  filter p l = a :: r ->
  exists l1 l2, l = l1 ++ a :: l2 /\ filter p l2 = r.
Proof.
  induction l as [|x rest IH]; simpl; intros H; [discriminate|].
  destruct (p x) eqn:E.
  - injection H as -> H. exists [], rest. auto.
  - destruct (IH H) as (l1 & l2 & -> & Hr). exists (x :: l1), l2. auto.
Qed.

Lemma before_filter_reflects p a b l :
  before a b (filter p l) -> before a b l.
Proof.
  intros (r1 & r2 & r3 & H).
  apply filter_eq_app in H as (l1 & l2 & -> & _ & H).
  apply filter_eq_cons in H as (m1 & m2 & -> & H).
  apply filter_eq_app in H as (n1 & n2 & -> & _ & H).
  apply filter_eq_cons in H as (k1 & k2 & -> & _).
  exists (l1 ++ m1), (n1 ++ k1), k2.
  now rewrite <- !app_assoc.
Qed.

(** *** The urgency boost *)

Lemma filter_filter_same {A : Type} (p : A -> bool) l :
  filter p (filter p l) = filter p l.
Proof.
  induction l as [|x rest IH]; simpl; [reflexivity|].
  destruct (p x) eqn:E; simpl; [rewrite E; f_equal|]; exact IH.
Qed.

Lemma filter_filter_neg {A : Type} (p : A -> bool) l :
  filter p (filter (fun x => negb (p x)) l) = []
  /\ filter (fun x => negb (p x)) (filter p l) = [].
Proof.
  induction l as [|x rest [IH1 IH2]]; simpl; [auto|].
  destruct (p x) eqn:E; simpl; rewrite E; simpl; auto.
Qed.

(** C6. With a true [urgent], the urgency stage rearranges the list left by
    the exclusion stage without dropping or duplicating a row: the result is
    the Idle rows followed by the others, and the Idle rows, like the
    others, come in the order they had. *)
Theorem urgency_stable_partition ex hide_busy fetched :
  pop_stages ex true hide_busy fetched
  = (if hide_busy then busy_hiding (urgency (exclusion ex fetched))
     else urgency (exclusion ex fetched))
  /\ Permutation (exclusion ex fetched) (urgency (exclusion ex fetched))
  /\ (exists idle others,
        urgency (exclusion ex fetched) = idle ++ others
        /\ Forall (fun item => p_status item = 0) idle
        /\ Forall (fun item => p_status item <> 0) others)
  /\ filter (fun item => p_status item =? 0) (urgency (exclusion ex fetched))
     = filter (fun item => p_status item =? 0) (exclusion ex fetched)
  /\ filter (fun item => negb (p_status item =? 0))
            (urgency (exclusion ex fetched))
     = filter (fun item => negb (p_status item =? 0)) (exclusion ex fetched).
Proof.
  split; [reflexivity|]. split; [apply urgency_perm|]. split; [|split].
  - exists (filter (fun item => p_status item =? 0) (exclusion ex fetched)),
           (filter (fun item => negb (p_status item =? 0)) (exclusion ex fetched)).
    split; [reflexivity|].
    split; apply Forall_forall; intros x Hx; apply filter_In in Hx as [_ Hx].
    + now apply Z.eqb_eq.
    + now apply negb_true_iff, Z.eqb_neq in Hx.
  - unfold urgency. rewrite filter_app, filter_filter_same.
    rewrite (proj1 (filter_filter_neg (fun item => p_status item =? 0) _)).
    apply app_nil_r.
  - unfold urgency. rewrite filter_app, filter_filter_same.
    now rewrite (proj2 (filter_filter_neg (fun item => p_status item =? 0) _)).
Qed.

Lemma sample_urgency :
  pop_stages [] true false sample_fetched = [pick_B; pick_A; pick_F; pick_C].
Proof. reflexivity. Qed.

(** *** The timeout sweep *)

Lemma stale_spec days now u :
  stale days now u = true
  <-> u_status u <> 0 /\ days <= DATEDIFF now (u_status_since u).
Proof.
  unfold stale.
  rewrite andb_true_iff, negb_true_iff, Z.eqb_neq, Z.leb_le. reflexivity.
Qed.

Lemma reset_status_row_swept days now u :
  swept days now u (reset_status_row days now u).
Proof.
  unfold swept, reset_status_row. destruct (stale days now u) eqn:E.
  - apply stale_spec in E. split; [reflexivity | tauto].
  - split; [|reflexivity]. intros H. apply stale_spec in H. congruence.
Qed.

Lemma reset_status_row_idem days now u :
  reset_status_row days now (reset_status_row days now u)
  = reset_status_row days now u.
Proof.
  unfold reset_status_row. destruct (stale days now u) eqn:E.
  - reflexivity.
  - now rewrite E.
Qed.

Lemma Forall2_map_self {A : Type} (R : A -> A -> Prop) f l :
  (forall x, R x (f x)) -> Forall2 R l (map f l).
Proof. intros H. induction l; simpl; constructor; auto. Qed.

Lemma map_id_on {A : Type} (f : A -> A) l :
  (forall x, In x l -> f x = x) -> map f l = l.
Proof.
  induction l as [|x rest IH]; simpl; intros H; [reflexivity|].
  rewrite H by now left. f_equal. apply IH. intros y Hy. apply H. now right.
Qed.

(** C7. [reset_status(days)] raises nothing and, record by record, sets
    [status = 0] and [status_since = NOW()] where the status was not Idle and
    the calendar-day difference between now and [status_since] was at least
    [days], and leaves every other record, and the other tables, as they
    were; running it again at the same instant changes nothing more, and it
    changes nothing at all when no record matches. *)
Theorem reset_status_sweep days w :
  fst (reset_status (PyInt days) w) = Ok tt
  /\ Forall2 (swept days (w_now w))
             (user (w_db w))
             (user (w_db (snd (reset_status (PyInt days) w))))
  /\ current (w_db (snd (reset_status (PyInt days) w))) = current (w_db w)
  /\ history (w_db (snd (reset_status (PyInt days) w))) = history (w_db w)
  /\ w_db (snd (reset_status (PyInt days)
                             (snd (reset_status (PyInt days) w))))
     = w_db (snd (reset_status (PyInt days) w))
  /\ ((forall u, In u (user (w_db w)) ->
         ~ (u_status u <> 0 /\ days <= DATEDIFF (w_now w) (u_status_since u))) ->
      w_db (snd (reset_status (PyInt days) w)) = w_db w).
Proof.
  rewrite !reset_status_run. simpl.
  split; [reflexivity|]. split; [|split; [reflexivity|split; [reflexivity|split]]].
  - apply Forall2_map_self. intros u. apply reset_status_row_swept.
  - f_equal. rewrite map_map. apply map_ext.
    intros u. apply reset_status_row_idem.
  - intros H. destruct w as [[us cur hist] now log]. simpl in *. f_equal.
    apply map_id_on. intros u Hu. unfold reset_status_row.
    destruct (stale days now u) eqn:E; [|reflexivity].
    apply stale_spec in E. exfalso. now apply (H u Hu).
Qed.

Lemma sample_reset :
  user (w_db (snd (reset_status (PyInt 7) sample_world)))
  = [user_A; user_B; mk_user "C" "Cid" "102" 1 1 0 864000 10; user_D;
     mk_user "E" "Eve" "104" 1 0 0 864000 7;
     mk_user "F" "Fay" "105" 1 1 0 864000 30].
Proof. reflexivity. Qed.

(** *** Lengths *)

Lemma pop_stages_length ex urgent hide_busy fetched :
  (List.length (pop_stages ex urgent hide_busy fetched)
   <= List.length fetched)%nat.
Proof.
  unfold pop_stages, busy_hiding, exclusion.
  assert (H1 := filter_length_le
                  (fun item => negb (str_in_py (p_id item) ex)) fetched).
  set (l1 := filter _ fetched) in *.
  assert (H2 : (List.length (if urgent then urgency l1 else l1)
                <= List.length fetched)%nat).
  { destruct urgent; [|exact H1].
    rewrite <- (Permutation_length (urgency_perm l1)). exact H1. }
  set (l2 := if urgent then urgency l1 else l1) in *.
  destruct hide_busy; [|exact H2].
  etransitivity; [apply filter_length_le | exact H2].
Qed.

Lemma fetched_length db fetched :
  order_by_ok (select_from_user db) fetched = true ->
  List.length fetched = List.length (filter eligible (user db)).
Proof.
  intros H. apply order_by_ok_inv in H as [Hp _].
  rewrite <- (Permutation_length Hp). unfold select_from_user.
  apply length_map.
Qed.

(** C8. For [count >= 0] and a well-typed [excludes], [pop] returns without
    error, and whatever it returns is no longer than [count], than the list
    the exclusion, urgency and busy-hiding stages leave, and than the number
    of eligible reviewers; with [count = 0], and with no eligible reviewer,
    the list returned is empty. *)
Theorem pop_truncation_bound n excludes urgent hide_busy w :
  0 <= n ->
  type_of (default_excludes excludes) = TList ->
  (exists result,
     pop (PyInt n) excludes urgent hide_busy w (Ok result) (logged SelectPop w))
  /\ (forall out w',
        pop (PyInt n) excludes urgent hide_busy w out w' ->
        exists ex fetched result,
          default_excludes excludes = PyList ex
          /\ order_by_ok (select_from_user (w_db w)) fetched = true
          /\ out = Ok result
          /\ result = py_slice_to
                        (pop_stages ex (truthy urgent) (truthy hide_busy) fetched) n
          /\ Z.of_nat (List.length result) <= n
          /\ (List.length result
              <= List.length
                   (pop_stages ex (truthy urgent) (truthy hide_busy) fetched))%nat
          /\ (List.length result
              <= List.length (filter eligible (user (w_db w))))%nat
          /\ (n = 0 -> result = [])
          /\ (filter eligible (user (w_db w)) = [] -> result = [])).
Proof.
  intros Hn Hex. split.
  - destruct (default_excludes excludes) as [| | | |ex] eqn:E; try discriminate.
    eexists. eapply pop_return; [reflexivity | exact E |].
    apply order_by_ok_insertion_sort.
  - intros out w' H.
    inversion H as [Hc | Hc He | n' ex fetched Hc He Hok]; subst.
    + exfalso. now apply Hc.
    + contradiction.
    + injection Hc as <-. exists ex, fetched. eexists.
      split; [exact He|]. split; [exact Hok|]. split; [reflexivity|].
      split; [reflexivity|].
      set (l := pop_stages ex (truthy urgent) (truthy hide_busy) fetched).
      destruct (py_slice_to_length l n) as [Hl Hc].
      assert (Hf := pop_stages_length ex (truthy urgent) (truthy hide_busy) fetched).
      fold l in Hf. rewrite (fetched_length _ _ Hok) in Hf.
      split; [auto|]. split; [exact Hl|]. split; [lia|]. split.
      * intros ->. specialize (Hc Hn).
        destruct (py_slice_to l 0); [reflexivity | simpl in Hc; lia].
      * intros Hempty. rewrite Hempty in Hf. simpl in Hf.
        destruct (py_slice_to l n); [reflexivity | simpl in Hl; lia].
Qed.

Lemma pop_truncation_bound_witness :
  0 <= 2
  /\ type_of (default_excludes PyNone) = TList
  /\ exists result,
       pop (PyInt 2) PyNone (PyBool false) (PyBool true) sample_world
           (Ok result) (logged SelectPop sample_world).
Proof.
  split; [lia|]. split; [reflexivity|].
  refine (proj1 (pop_truncation_bound 2 PyNone (PyBool false) (PyBool true)
                   sample_world _ eq_refl)).
  lia.
Defined.

(** The specification's first example: with nobody flagged, [pop(2)] returns
    the two least loaded reviewers of [A], [B], [C]. *)
Lemma sample_pop_plain :
  pop (PyInt 2) (PyList []) (PyBool false) (PyBool true)
      (mk_world (mk_db [user_A; user_B; user_C] [mk_current "C" 100] []) 0 [])
      (Ok [mk_pick "A" "Ann" "100" 1 0 0 0; pick_B])
      (mk_world (mk_db [user_A; user_B; user_C] [mk_current "C" 100] []) 0
                [SelectPop]).
Proof.
  exact (pop_return (PyInt 2) (PyList []) (PyBool false) (PyBool true)
           (mk_world (mk_db [user_A; user_B; user_C] [mk_current "C" 100] []) 0 [])
           2 [] [mk_pick "A" "Ann" "100" 1 0 0 0; pick_B; pick_C]
           eq_refl eq_refl eq_refl).
Qed.

(** *** The status domain *)

Lemma status_invariant_map f db :
  status_invariant db ->
  (forall u, status_in_domain (u_status u) -> status_in_domain (u_status (f u))) ->
  status_invariant (mk_db (map f (user db)) (current db) (history db)).
Proof.
  intros Hinv Hf u Hu. simpl in Hu. apply in_map_iff in Hu as (u0 & <- & Hu0).
  apply Hf, Hinv, Hu0.
Qed.

Lemma set_status_invariant user_id status w :
  status_invariant (w_db w) ->
  status_invariant (w_db (snd (set_status user_id status w))).
Proof.
  intros Hinv. rewrite set_status_run.
  destruct (is_str user_id); [|exact Hinv].
  destruct (existsb _ _); [|exact Hinv].
  destruct (py_in_ints status [0; 1; 2]) eqn:E; [|exact Hinv].
  simpl. apply status_invariant_map; [exact Hinv|].
  intros u Hu. unfold set_status_row.
  destruct (str_eq_py (u_id u) user_id); [|exact Hu].
  simpl. now apply py_in_ints_sql_int.
Qed.

Lemma reset_status_invariant days w :
  status_invariant (w_db w) ->
  status_invariant (w_db (snd (reset_status days w))).
Proof.
  intros Hinv. rewrite reset_status_run.
  destruct (is_int days); [|exact Hinv].
  simpl. apply status_invariant_map; [exact Hinv|].
  intros u Hu. unfold reset_status_row.
  destruct (stale _ _ u); [|exact Hu]. simpl. now left.
Qed.

Lemma contains_db user_id only_reviewer w :
  w_db (snd (__contains__ user_id only_reviewer w)) = w_db w.
Proof. rewrite contains_run. destruct (is_str user_id); reflexivity. Qed.

Lemma fetch_db user_id w : w_db (snd (fetch user_id w)) = w_db w.
Proof. rewrite fetch_run. destruct (is_str user_id); reflexivity. Qed.

(** C9. From a database whose stored statuses are all in [{0, 1, 2}], every
    operation leaves one: [set_status] with a status outside [{0, 1, 2}]
    raises and changes no table, and otherwise writes a status of the
    domain; [reset_status] changes a record only to one of status [0]; and
    [pop], [search], [fetch] and [__contains__] change no table. *)
Theorem status_domain_preserved w :
  status_invariant (w_db w) ->
  (forall user_id status,
     status_invariant (w_db (snd (set_status user_id status w))))
  /\ (forall user_id status,
        py_in_ints status [0; 1; 2] = false ->
        (exists e, fst (set_status user_id status w) = Raise e)
        /\ w_db (snd (set_status user_id status w)) = w_db w)
  /\ (forall user_id n,
        ~ status_in_domain n ->
        (exists e, fst (set_status user_id (PyInt n) w) = Raise e)
        /\ w_db (snd (set_status user_id (PyInt n) w)) = w_db w)
  /\ (forall days,
        status_invariant (w_db (snd (reset_status days w)))
        /\ Forall2 (fun u u' => u' = u \/ u_status u' = 0)
                   (user (w_db w))
                   (user (w_db (snd (reset_status days w)))))
  /\ (forall count excludes urgent hide_busy out w',
        pop count excludes urgent hide_busy w out w' -> w_db w' = w_db w)
  /\ (forall user_id name phone only_reviewer,
        w_db (snd (search user_id name phone only_reviewer w)) = w_db w)
  /\ (forall user_id, w_db (snd (fetch user_id w)) = w_db w)
  /\ (forall user_id only_reviewer,
        w_db (snd (__contains__ user_id only_reviewer w)) = w_db w).
Proof.
  intros Hinv.
  assert (Hrej : forall user_id status,
            py_in_ints status [0; 1; 2] = false ->
            (exists e, fst (set_status user_id status w) = Raise e)
            /\ w_db (snd (set_status user_id status w)) = w_db w).
  { intros user_id status E. rewrite set_status_run, E.
    destruct (is_str user_id); [|simpl; eauto].
    destruct (existsb _ _); simpl; eauto. }
  split; [intros; now apply set_status_invariant|].
  split; [exact Hrej|]. split.
  { intros user_id n Hn. apply Hrej. apply not_true_is_false.
    intros E. now apply py_in_ints_domain in E. }
  split.
  { intros days. split; [now apply reset_status_invariant|].
    rewrite reset_status_run. destruct (is_int days); simpl.
    - apply Forall2_map_self. intros u. unfold reset_status_row.
      destruct (stale _ _ u); [now right | now left].
    - generalize (user (w_db w)). intros l.
      induction l as [|x rest IH]; constructor; [now left | exact IH]. }
  split; [intros; eapply pop_db; eassumption|].
  split; [intros; apply search_db|].
  split; [intros; apply fetch_db | intros; apply contains_db].
Qed.

Lemma status_domain_preserved_witness :
  status_invariant (w_db sample_world)
  /\ status_invariant
       (w_db (snd (set_status (PyStr "A") (PyInt 2) sample_world)))
  /\ w_db (snd (set_status (PyStr "A") (PyInt 3) sample_world))
     = w_db sample_world.
Proof.
  pose proof (status_domain_preserved sample_world sample_status_invariant)
    as (H1 & H2 & _).
  split; [exact sample_status_invariant|]. split; [apply H1|].
  apply (H2 (PyStr "A") (PyInt 3)). reflexivity.
Defined.

(** *** Lookup by id *)

Lemma fetchone_unique {A B : Type} (f : A -> B) p l r :
  In r l -> p r = true ->
  (forall r', In r' l -> p r' = true -> r' = r) ->
  fetchone (map f (filter p l)) = Some (f r).
Proof.
  induction l as [|x rest IH]; simpl; intros Hin Hp Huniq; [contradiction|].
  destruct (p x) eqn:E.
  - simpl. rewrite (Huniq x (or_introl eq_refl) E). reflexivity.
  - destruct Hin as [->|Hin]; [congruence|].
    apply IH; auto.
Qed.

Lemma fetchone_none {A B : Type} (f : A -> B) p l :
  (forall r, In r l -> p r = false) ->
  fetchone (map f (filter p l)) = None.
Proof.
  induction l as [|x rest IH]; simpl; intros H; [reflexivity|].
  rewrite (H x (or_introl eq_refl)). apply IH. intros r Hr. apply H. now right.
Qed.

(** C10. [fetch] selects by id alone.  The ids being a key, it returns the
    columns [(id, name, phone, role, status)] of any stored record asked for
    by its id, whatever the record's [available] and [role]; for an id no
    record has it returns [None] and raises nothing; and it changes no
    table. *)
Theorem fetch_by_id w :
  NoDup (map u_id (user (w_db w))) ->
  (forall r, In r (user (w_db w)) ->
     fetch (PyStr (u_id r)) w
     = (Ok (Some (u_id r, u_name r, u_phone r, u_role r, u_status r)),
        logged SelectFetch w))
  /\ (forall s, ~ In s (map u_id (user (w_db w))) ->
        fetch (PyStr s) w = (Ok None, logged SelectFetch w)).
Proof.
  intros Hnd. split.
  - intros r Hr. rewrite fetch_run. simpl is_str. cbv iota.
    rewrite (fetchone_unique select_user_columns _ _ r Hr).
    + reflexivity.
    + simpl. apply String.eqb_refl.
    + intros r' Hr' E. simpl in E. apply String.eqb_eq in E.
      now apply (NoDup_map_inj u_id (user (w_db w))).
  - intros s Hs. rewrite fetch_run. simpl is_str. cbv iota.
    rewrite fetchone_none; [reflexivity|].
    intros r Hr. simpl. apply String.eqb_neq. intros E. apply Hs.
    rewrite <- E. now apply in_map.
Qed.

Lemma sample_user_nodup : NoDup (map u_id (user sample_db)).
Proof.
  simpl. repeat constructor; simpl; intuition discriminate.
Defined.

Lemma fetch_by_id_witness :
  NoDup (map u_id (user (w_db sample_world)))
  /\ eligible user_E = false
  /\ fetch (PyStr "E") sample_world
     = (Ok (Some ("E"%string, "Eve"%string, "104"%string, 1, 2)),
        logged SelectFetch sample_world)
  /\ eligible user_D = false
  /\ fetch (PyStr "D") sample_world
     = (Ok (Some ("D"%string, "Dee"%string, "103"%string, 0, 0)),
        logged SelectFetch sample_world)
  /\ fetch (PyStr "Z") sample_world = (Ok None, logged SelectFetch sample_world).
Proof.
  pose proof (fetch_by_id sample_world sample_user_nodup) as [H1 H2].
  split; [exact sample_user_nodup|]. split; [reflexivity|].
  split; [apply (H1 user_E); simpl; tauto|]. split; [reflexivity|].
  split; [apply (H1 user_D); simpl; tauto|].
  apply (H2 "Z"%string). simpl. intuition discriminate.
Defined.

(** ** Further properties of the module *)

(** *** Exclusion *)

Lemma str_in_py_In s ex : In (PyStr s) ex -> str_in_py s ex = true.
Proof.
  intros H. apply existsb_exists. exists (PyStr s). split; [exact H|].
  simpl. apply String.eqb_refl.
Qed.

Lemma str_in_py_inv s ex : str_in_py s ex = true -> In (PyStr s) ex.
Proof.
  intros H. apply existsb_exists in H as (v & Hv & E).
  destruct v; simpl in E; try discriminate.
  apply String.eqb_eq in E. now subst.
Qed.

Lemma exclusion_noop ex l :
  (forall item, In item l -> ~ In (PyStr (p_id item)) ex) ->
  exclusion ex l = l.
Proof.
  unfold exclusion. induction l as [|x rest IH]; simpl; intros H; [reflexivity|].
  destruct (str_in_py (p_id x) ex) eqn:E.
  - apply str_in_py_inv in E. exfalso. now apply (H x (or_introl eq_refl)).
  - simpl. f_equal. apply IH. intros item Hi. apply H. now right.
Qed.

(** X1. No entry [pop] returns carries an id listed in [excludes]. *)
Theorem pop_excludes_absent count excludes urgent hide_busy w result w' ex s :
  pop count excludes urgent hide_busy w (Ok result) w' ->
  default_excludes excludes = PyList ex ->
  In (PyStr s) ex ->
  ~ In s (map p_id result).
Proof.
  intros Hpop Hex Hs Hin.
  apply pop_Ok_inv in Hpop as (n & ex' & fetched & _ & Hex' & _ & -> & _).
  rewrite Hex in Hex'. injection Hex' as <-.
  apply in_map_iff in Hin as (item & <- & Hin).
  apply py_slice_to_In, pop_stages_In in Hin. destruct Hin as (_ & E & _).
  apply str_in_py_In in Hs. congruence.
Qed.

Lemma sample_pop_excluding_B :
  pop (PyInt 2) (PyList [PyStr "B"; PyInt 7]) (PyBool false) (PyBool true)
      sample_world (Ok [pick_C]) (logged SelectPop sample_world).
Proof.
  exact (pop_return (PyInt 2) (PyList [PyStr "B"; PyInt 7]) (PyBool false)
           (PyBool true) sample_world 2 [PyStr "B"; PyInt 7] sample_fetched
           eq_refl eq_refl eq_refl).
Defined.

Lemma pop_excludes_absent_witness :
  pop (PyInt 2) (PyList [PyStr "B"; PyInt 7]) (PyBool false) (PyBool true)
      sample_world (Ok [pick_C]) (logged SelectPop sample_world)
  /\ default_excludes (PyList [PyStr "B"; PyInt 7])
     = PyList [PyStr "B"; PyInt 7]
  /\ In (PyStr "B") [PyStr "B"; PyInt 7]
  /\ ~ In "B"%string (map p_id [pick_C]).
Proof.
  split; [exact sample_pop_excluding_B|]. split; [reflexivity|].
  split; [now left|].
  apply (pop_excludes_absent _ _ _ _ _ _ _ _ _ sample_pop_excluding_B eq_refl).
  now left.
Defined.

Lemma pop_same_default count e1 e2 urgent hide_busy w out w' :
  default_excludes e1 = default_excludes e2 ->
  pop count e1 urgent hide_busy w out w' ->
  pop count e2 urgent hide_busy w out w'.
Proof.
  intros E H. inversion H as [Hc | Hc He | n ex fetched Hc He Hok]; subst.
  - now apply pop_invalid_count.
  - apply pop_invalid_excludes; [exact Hc | now rewrite <- E].
  - eapply pop_return; [reflexivity | now rewrite <- E | exact Hok].
Qed.

(** X2. An [excludes] that is falsy, whatever its type ([None], [False],
    [0], [''], [[]]), is taken for the empty list: [pop] behaves on it as on
    [[]] and raises nothing for its type. *)
Theorem pop_falsy_excludes count excludes urgent hide_busy w out w' :
  truthy excludes = false ->
  (pop count excludes urgent hide_busy w out w'
   <-> pop count (PyList []) urgent hide_busy w out w')
  /\ (pop count excludes urgent hide_busy w out w' ->
      out <> Raise (AssertionError "invalid arg: excludes")).
Proof.
  intros Hf.
  assert (E : default_excludes excludes = default_excludes (PyList [])).
  { unfold default_excludes. now rewrite Hf. }
  split.
  - split; apply pop_same_default; [exact E | now symmetry].
  - intros H. inversion H as [Hc | Hc He | n ex fetched Hc He Hok]; subst.
    + discriminate.
    + exfalso. apply He. now rewrite E.
    + discriminate.
Qed.

Lemma pop_falsy_excludes_witness :
  truthy (PyInt 0) = false
  /\ (pop (PyInt 2) (PyInt 0) (PyBool false) (PyBool true) sample_world
          (Ok [pick_B; pick_C]) (logged SelectPop sample_world)
      <-> pop (PyInt 2) (PyList []) (PyBool false) (PyBool true) sample_world
              (Ok [pick_B; pick_C]) (logged SelectPop sample_world)).
Proof.
  split; [reflexivity|].
  exact (proj1 (pop_falsy_excludes (PyInt 2) (PyInt 0) (PyBool false)
                  (PyBool true) sample_world (Ok [pick_B; pick_C])
                  (logged SelectPop sample_world) eq_refl)).
Defined.

(** X3. Entries of [excludes] that name no eligible reviewer, or that are
    not strings at all, change nothing: [pop] behaves as with no
    exclusion. *)
Theorem pop_unknown_excludes count ex urgent hide_busy w out w' :
  (forall u, In u (user (w_db w)) -> eligible u = true ->
             ~ In (PyStr (u_id u)) ex) ->
  (pop count (PyList ex) urgent hide_busy w out w'
   <-> pop count (PyList []) urgent hide_busy w out w').
Proof.
  intros Hno.
  assert (Hstage : forall fetched,
            order_by_ok (select_from_user (w_db w)) fetched = true ->
            pop_stages ex (truthy urgent) (truthy hide_busy) fetched
            = pop_stages [] (truthy urgent) (truthy hide_busy) fetched).
  { intros fetched Hok. unfold pop_stages.
    rewrite (exclusion_noop ex fetched), (exclusion_noop [] fetched).
    - reflexivity.
    - intros item _ [].
    - intros item Hi. apply (fetched_in _ _ _ Hok) in Hi as (u & Hu & He & ->).
      simpl. now apply Hno. }
  assert (Hd : default_excludes (PyList ex) = PyList ex).
  { unfold default_excludes. destruct ex; reflexivity. }
  split; intros H;
    inversion H as [Hc | Hc He | n ex' fetched Hc He Hok]; subst.
  - now apply pop_invalid_count.
  - exfalso. apply He. now rewrite Hd.
  - rewrite Hd in He. injection He as <-. rewrite (Hstage _ Hok).
    eapply pop_return; [reflexivity | reflexivity | exact Hok].
  - now apply pop_invalid_count.
  - exfalso. now apply He.
  - simpl in He. injection He as <-. rewrite <- (Hstage _ Hok).
    eapply pop_return; [reflexivity | exact Hd | exact Hok].
Qed.

Lemma pop_unknown_excludes_witness :
  (forall u, In u (user (w_db sample_world)) -> eligible u = true ->
             ~ In (PyStr (u_id u)) [PyStr "Q"; PyInt 7])
  /\ pop (PyInt 2) (PyList [PyStr "Q"; PyInt 7]) (PyBool false) (PyBool true)
         sample_world (Ok [pick_B; pick_C]) (logged SelectPop sample_world).
Proof.
  assert (H : forall u, In u (user (w_db sample_world)) -> eligible u = true ->
                        ~ In (PyStr (u_id u)) [PyStr "Q"; PyInt 7]).
  { intros u Hu _ Hin. simpl in Hu, Hin.
    destruct Hin as [Hin|[Hin|[]]]; [|discriminate Hin].
    repeat (destruct Hu as [<-|Hu]; [discriminate Hin|]). contradiction. }
  split; [exact H|].
  apply (proj2 (pop_unknown_excludes (PyInt 2) [PyStr "Q"; PyInt 7]
                  (PyBool false) (PyBool true) sample_world
                  (Ok [pick_B; pick_C]) (logged SelectPop sample_world) H)).
  exact (pop_return (PyInt 2) (PyList []) (PyBool false) (PyBool true)
           sample_world 2 [] sample_fetched eq_refl eq_refl eq_refl).
Defined.

(** *** The computed columns of the snapshot *)

(** X4. The [current] column of a snapshot row, read through the [GROUP BY]
    sub-query, the [LEFT JOIN] and [IFNULL], is the number of rows of
    [current] that carry the reviewer's id; it is never negative and is [0]
    for a reviewer with no assignment. *)
Theorem snapshot_current_is_count db fetched item :
  order_by_ok (select_from_user db) fetched = true ->
  In item fetched ->
  p_current item
  = Z.of_nat (List.length
      (filter (fun c => String.eqb (c_reviewerid c) (p_id item)) (current db)))
  /\ 0 <= p_current item
  /\ ((forall c, In c (current db) -> c_reviewerid c <> p_id item) ->
      p_current item = 0).
Proof.
  intros Hok Hin. apply (fetched_in _ _ _ Hok) in Hin as (u & _ & _ & ->).
  rewrite current_count. change (p_id (select_row db u)) with (u_id u).
  split; [reflexivity|]. split; [lia|].
  intros Hno.
  replace (filter _ (current db)) with (@nil current_row); [reflexivity|].
  symmetry. induction (current db) as [|c rest IH]; simpl; [reflexivity|].
  destruct (String.eqb (c_reviewerid c) (u_id u)) eqn:E.
  - apply String.eqb_eq in E. exfalso. now apply (Hno c (or_introl eq_refl)).
  - apply IH. intros c' Hc'. apply Hno. now right.
Qed.

Lemma snapshot_current_is_count_witness :
  order_by_ok (select_from_user sample_db) sample_fetched = true
  /\ In pick_C sample_fetched
  /\ p_current pick_C
     = Z.of_nat (List.length
         (filter (fun c => String.eqb (c_reviewerid c) (p_id pick_C))
                 (current sample_db))).
Proof.
  assert (Hin : In pick_C sample_fetched) by (simpl; tauto).
  split; [reflexivity|]. split; [exact Hin|].
  exact (proj1 (snapshot_current_is_count sample_db sample_fetched pick_C
                  eq_refl Hin)).
Defined.

Lemma fold_left_min_spec rest : forall x,
  In (fold_left Z.min rest x) (x :: rest)
  /\ forall y, In y (x :: rest) -> fold_left Z.min rest x <= y.
Proof.
  induction rest as [|z rest IH]; intros x; simpl.
  - split; [now left|]. intros y [<-|[]]. lia.
  - destruct (IH (Z.min x z)) as [Hin Hle]. split.
    + destruct Hin as [E|Hin]; [|now right; right].
      rewrite <- E. destruct (Z.min_spec x z) as [[_ ->]|[_ ->]]; auto.
    + intros y Hy.
      assert (Hm : fold_left Z.min rest (Z.min x z) <= Z.min x z)
        by (apply Hle; now left).
      destruct Hy as [<-|[<-|Hy]]; [lia | lia |].
      apply Hle. now right.
Qed.

Lemma sql_min_spec xs m :
  sql_min xs = Some m -> In m xs /\ forall y, In y xs -> m <= y.
Proof.
  destruct xs as [|x rest]; simpl; intros H; [discriminate|].
  injection H as <-. apply fold_left_min_spec.
Qed.

Lemma min_pages_eligible db u :
  In u (user db) -> eligible u = true ->
  exists m, min_pages db = Some m /\ m <= u_pages u
            /\ exists u0, In u0 (user db) /\ eligible u0 = true
                          /\ u_pages u0 = m.
Proof.
  intros Hu He. unfold min_pages.
  assert (Hin : In (u_pages u) (map u_pages (filter eligible (user db)))).
  { apply in_map, filter_In. auto. }
  destruct (sql_min (map u_pages (filter eligible (user db)))) as [m|] eqn:E.
  - destruct (sql_min_spec _ _ E) as [Hm Hle]. exists m.
    split; [reflexivity|]. split; [now apply Hle|].
    apply in_map_iff in Hm as (u0 & Hp & Hu0).
    apply filter_In in Hu0 as [Hu0 He0]. eauto.
  - destruct (map u_pages (filter eligible (user db))); [contradiction|discriminate].
Qed.

(** X5. The [pages_diff] column of every snapshot row is the reviewer's
    pages minus the least pages among eligible reviewers: it is never
    negative, and a non-empty snapshot has a row where it is [0]. *)
Theorem snapshot_pages_diff db fetched :
  order_by_ok (select_from_user db) fetched = true ->
  (forall item, In item fetched -> 0 <= p_pages_diff item)
  /\ (fetched <> [] ->
      exists item, In item fetched /\ p_pages_diff item = 0)
  /\ (forall u v,
        p_pages_diff (select_row db u) - p_pages_diff (select_row db v)
        = u_pages u - u_pages v).
Proof.
  intros Hok. split; [|split].
  - intros item Hin. apply (fetched_in _ _ _ Hok) in Hin as (u & Hu & He & ->).
    destruct (min_pages_eligible db u Hu He) as (m & Hm & Hle & _).
    simpl. unfold pages_diff. rewrite Hm. simpl. lia.
  - intros Hne. destruct fetched as [|item rest]; [congruence|].
    assert (Hin : In item (item :: rest)) by now left.
    apply (fetched_in _ _ _ Hok) in Hin as (u & Hu & He & _).
    destruct (min_pages_eligible db u Hu He) as (m & Hm & _ & u0 & Hu0 & He0 & Hp).
    exists (select_row db u0). split.
    + apply (fetched_in _ _ _ Hok). eauto.
    + simpl. unfold pages_diff. rewrite Hm. simpl. lia.
  - intros u v. simpl. unfold pages_diff. lia.
Qed.

Lemma snapshot_pages_diff_witness :
  order_by_ok (select_from_user sample_db) sample_fetched = true
  /\ forall item, In item sample_fetched -> 0 <= p_pages_diff item.
Proof.
  split; [reflexivity|].
  exact (proj1 (snapshot_pages_diff sample_db sample_fetched eq_refl)).
Defined.

(** X6. When stored statuses are in [{0, 1, 2}], the rows of a snapshot
    flagged [-1] all carry one and the same id: at most one reviewer is
    flagged. *)
Theorem snapshot_one_flagged db fetched a b :
  status_invariant db ->
  order_by_ok (select_from_user db) fetched = true ->
  In a fetched -> In b fetched ->
  p_status a = -1 -> p_status b = -1 ->
  p_id a = p_id b.
Proof.
  intros Hinv Hok Ha Hb Sa Sb.
  apply (fetched_in _ _ _ Hok) in Ha as (u & Hu & _ & ->).
  apply (fetched_in _ _ _ Hok) in Hb as (v & Hv & _ & ->).
  simpl in *.
  destruct (effective_status_cases db u) as [[_ Lu]|[Eu _]].
  - destruct (effective_status_cases db v) as [[_ Lv]|[Ev _]].
    + congruence.
    + rewrite Ev in Sb. destruct (Hinv v Hv) as [K|[K|K]]; lia.
  - rewrite Eu in Sa. destruct (Hinv u Hu) as [K|[K|K]]; lia.
Qed.

Lemma snapshot_one_flagged_witness :
  status_invariant sample_db
  /\ order_by_ok (select_from_user sample_db) sample_fetched = true
  /\ In pick_A sample_fetched
  /\ p_status pick_A = -1
  /\ p_id pick_A = p_id pick_A.
Proof.
  assert (Hin : In pick_A sample_fetched) by (simpl; tauto).
  split; [exact sample_status_invariant|]. split; [reflexivity|].
  split; [exact Hin|]. split; [reflexivity|].
  exact (snapshot_one_flagged sample_db sample_fetched pick_A pick_A
           sample_status_invariant eq_refl Hin Hin eq_refl eq_refl).
Defined.

(** X7. Nobody is flagged, every snapshot row carrying the stored status,
    when the history table is empty, and when some assignment with a
    non-empty reviewer id started after the end of every history record. *)
Theorem snapshot_nobody_flagged db :
  history db = []
  \/ (exists c, In c (current db) /\ c_reviewerid c <> EmptyString
                /\ forall h, In h (history db) -> h_end h < c_start c) ->
  forall u, p_status (select_row db u) = u_status u.
Proof.
  intros H u. simpl. unfold effective_status.
  replace (latest_reviewerid db) with (@None string); [reflexivity|].
  symmetry. unfold latest_reviewerid. destruct H as [E|(c & Hc & Hne & Hlate)].
  - now rewrite E.
  - destruct (latest_history (history db)) as [lh|] eqn:E; [|reflexivity].
    apply latest_history_max in E as [Hin _].
    replace (started_after (current db) lh) with true; [reflexivity|].
    symmetry. apply existsb_exists. exists c. split; [exact Hc|].
    apply andb_true_iff. split.
    + apply Z.ltb_lt. now apply Hlate.
    + now apply negb_true_iff, String.eqb_neq.
Qed.

Lemma snapshot_nobody_flagged_witness :
  (exists c, In c (current (mk_db (user sample_db) [mk_current "B" 300]
                                  (history sample_db)))
             /\ c_reviewerid c <> EmptyString
             /\ forall h, In h (history sample_db) -> h_end h < c_start c)
  /\ p_status (select_row (mk_db (user sample_db) [mk_current "B" 300]
                                 (history sample_db)) user_A)
     = u_status user_A.
Proof.
  assert (H : exists c, In c [mk_current "B" 300]
                        /\ c_reviewerid c <> EmptyString
                        /\ forall h, In h (history sample_db) ->
                                     h_end h < c_start c).
  { exists (mk_current "B" 300). split; [now left|]. split; [discriminate|].
    intros h Hh. simpl in Hh.
    destruct Hh as [<-|[<-|[]]]; simpl; lia. }
  split; [exact H|].
  exact (snapshot_nobody_flagged
           (mk_db (user sample_db) [mk_current "B" 300] (history sample_db))
           (or_intror H) user_A).
Defined.

(** *** What [pop] returns *)

Lemma NoDup_map_filter {A B : Type} (f : A -> B) p l :
  NoDup (map f l) -> NoDup (map f (filter p l)).
Proof.
  induction l as [|x rest IH]; simpl; intros H; [constructor|].
  inversion H as [|? ? Hnot Hnd]; subst.
  destruct (p x); [|now apply IH].
  simpl. constructor; [|now apply IH].
  intros Hin. apply Hnot. apply in_map_iff in Hin as (y & E & Hy).
  apply filter_In in Hy as [Hy _]. rewrite <- E. now apply in_map.
Qed.

Lemma NoDup_firstn {A : Type} k : forall l : list A,
  NoDup l -> NoDup (firstn k l).
Proof.
  induction k as [|k IH]; intros l H; simpl; [constructor|].
  destruct l as [|x rest]; [constructor|].
  inversion H as [|? ? Hnot Hnd]; subst.
  constructor; [|now apply IH].
  intros Hin. apply Hnot.
  rewrite <- (firstn_skipn k rest). apply in_or_app. now left.
Qed.

Lemma select_ids db :
  map p_id (select_from_user db) = map u_id (filter eligible (user db)).
Proof. unfold select_from_user. rewrite map_map. reflexivity. Qed.

(** X8. When the ids of [user] are distinct, [pop] never returns the same
    reviewer twice. *)
Theorem pop_no_duplicate count excludes urgent hide_busy w result w' :
  NoDup (map u_id (user (w_db w))) ->
  pop count excludes urgent hide_busy w (Ok result) w' ->
  NoDup (map p_id result).
Proof.
  intros Hnd Hpop.
  apply pop_Ok_inv in Hpop as (n & ex & fetched & _ & _ & Hok & -> & _).
  destruct (order_by_ok_inv _ _ Hok) as [Hp _].
  assert (Hf : NoDup (map p_id fetched)).
  { apply (Permutation_NoDup (Permutation_map p_id Hp)).
    rewrite select_ids. now apply NoDup_map_filter. }
  destruct (py_slice_to_firstn
              (pop_stages ex (truthy urgent) (truthy hide_busy) fetched) n)
    as [k ->].
  rewrite <- firstn_map. apply NoDup_firstn.
  unfold pop_stages, busy_hiding, exclusion.
  assert (H1 : NoDup (map p_id
            (filter (fun item => negb (str_in_py (p_id item) ex)) fetched)))
    by now apply NoDup_map_filter.
  set (l1 := filter _ fetched) in *.
  assert (H2 : NoDup (map p_id (if truthy urgent then urgency l1 else l1))).
  { destruct (truthy urgent); [|exact H1].
    exact (Permutation_NoDup (Permutation_map p_id (urgency_perm l1)) H1). }
  destruct (truthy hide_busy); [now apply NoDup_map_filter | exact H2].
Qed.

Lemma pop_no_duplicate_witness :
  NoDup (map u_id (user (w_db sample_world)))
  /\ NoDup (map p_id [pick_B; pick_C]).
Proof.
  split; [exact sample_user_nodup|].
  exact (pop_no_duplicate (PyInt 2) PyNone (PyBool false) (PyBool true)
           sample_world [pick_B; pick_C] (logged SelectPop sample_world)
           sample_user_nodup sample_pop_hide).
Defined.

Lemma firstn_all_ge {A : Type} (l : list A) k :
  (List.length l <= k)%nat -> firstn k l = l.
Proof.
  revert k. induction l as [|x rest IH]; intros k H.
  - now destruct k.
  - destruct k as [|k]; simpl in H; [lia|]. simpl. f_equal. apply IH. lia.
Qed.

(** X9. With busy hiding switched off, no exclusion and a [count] at least
    the number of eligible reviewers, [pop] returns every eligible reviewer,
    each once: a rearrangement of the snapshot, urgent or not. *)
Theorem pop_returns_everyone n excludes urgent hide_busy w result w' :
  truthy excludes = false ->
  truthy hide_busy = false ->
  Z.of_nat (List.length (filter eligible (user (w_db w)))) <= n ->
  pop (PyInt n) excludes urgent hide_busy w (Ok result) w' ->
  Permutation (select_from_user (w_db w)) result.
Proof.
  intros Hex Hh Hn Hpop.
  apply pop_Ok_inv in Hpop as (n' & ex & fetched & Hc & He & Hok & -> & _).
  injection Hc as <-.
  unfold default_excludes in He. rewrite Hex in He. simpl in He.
  injection He as <-. rewrite Hh.
  destruct (order_by_ok_inv _ _ Hok) as [Hp _].
  assert (Hl := fetched_length _ _ Hok).
  assert (Hs := pop_stages_length [] (truthy urgent) false fetched).
  unfold py_slice_to. destruct (n <? 0) eqn:E; [apply Z.ltb_lt in E; lia|].
  rewrite firstn_all_ge by lia.
  unfold pop_stages. rewrite (exclusion_noop [] fetched) by (intros ? _ []).
  destruct (truthy urgent); [|exact Hp].
  eapply perm_trans; [exact Hp | apply urgency_perm].
Qed.

Lemma sample_pop_everyone :
  pop (PyInt 4) PyNone (PyBool true) (PyBool false) sample_world
      (Ok [pick_B; pick_A; pick_F; pick_C]) (logged SelectPop sample_world).
Proof.
  exact (pop_return (PyInt 4) PyNone (PyBool true) (PyBool false) sample_world
           4 [] sample_fetched eq_refl eq_refl eq_refl).
Defined.

Lemma pop_returns_everyone_witness :
  truthy PyNone = false
  /\ truthy (PyBool false) = false
  /\ Z.of_nat (List.length (filter eligible (user (w_db sample_world)))) <= 4
  /\ Permutation (select_from_user (w_db sample_world))
                 [pick_B; pick_A; pick_F; pick_C].
Proof.
  assert (H : Z.of_nat (List.length (filter eligible (user (w_db sample_world))))
              <= 4) by (simpl; lia).
  split; [reflexivity|]. split; [reflexivity|]. split; [exact H|].
  exact (pop_returns_everyone 4 PyNone (PyBool true) (PyBool false)
           sample_world _ _ eq_refl eq_refl H sample_pop_everyone).
Defined.

Lemma filter_filter_and {A : Type} (p q : A -> bool) l :
  filter p (filter q l) = filter (fun x => p x && q x) l.
Proof.
  induction l as [|x rest IH]; simpl; [reflexivity|].
  destruct (q x) eqn:Q, (p x) eqn:P; simpl; rewrite ?P, IH; reflexivity.
Qed.

(** X10. With [urgent] and [hide_busy] both true, what [pop] returns is
    the first [count] entries of this list: the rows of the fetched snapshot
    that are not excluded and have status [0], in the order the query
    returned them, followed by the rows that are not excluded and have
    status [1], in that order too; each of the two groups ascends in
    [(current, pages_diff)], and a row is in the first (second) group exactly
    when it is the row of an eligible reviewer whose id is not excluded and
    it has status [0] ([1]). *)
Theorem pop_urgent_hidden n excludes urgent hide_busy w result w' :
  truthy urgent = true ->
  truthy hide_busy = true ->
  pop (PyInt n) excludes urgent hide_busy w (Ok result) w' ->
  exists ex fetched,
    default_excludes excludes = PyList ex
    /\ order_by_ok (select_from_user (w_db w)) fetched = true
    /\ result
       = py_slice_to
           (filter (fun item => p_status item =? 0) (exclusion ex fetched)
            ++ filter (fun item => p_status item =? 1) (exclusion ex fetched))
           n
    /\ StronglySorted key_le
         (filter (fun item => p_status item =? 0) (exclusion ex fetched))
    /\ StronglySorted key_le
         (filter (fun item => p_status item =? 1) (exclusion ex fetched))
    /\ (forall item k,
          In item (filter (fun item => p_status item =? k)
                          (exclusion ex fetched))
          <-> exists u, In u (user (w_db w)) /\ eligible u = true
                /\ ~ In (PyStr (u_id u)) ex
                /\ item = select_row (w_db w) u
                /\ p_status item = k).
Proof.
  intros Hu Hh Hpop.
  apply pop_Ok_inv in Hpop as (n' & ex & fetched & Hc & He & Hok & -> & _).
  injection Hc as <-. rewrite Hu, Hh.
  destruct (order_by_ok_inv _ _ Hok) as [_ Hs].
  exists ex, fetched. split; [exact He|]. split; [exact Hok|].
  split; [|split; [|split]].
  - f_equal. unfold pop_stages, busy_hiding, urgency.
    rewrite filter_app. f_equal.
    + rewrite filter_filter_and. apply filter_ext. intros a.
      destruct (p_status a =? 0), (p_status a =? 1); reflexivity.
    + rewrite filter_filter_and. apply filter_ext. intros a.
      destruct (p_status a =? 0) eqn:E0, (p_status a =? 1) eqn:E1;
        try reflexivity.
      apply Z.eqb_eq in E0, E1. lia.
  - unfold exclusion. now apply StronglySorted_filter, StronglySorted_filter.
  - unfold exclusion. now apply StronglySorted_filter, StronglySorted_filter.
  - intros item k. unfold exclusion. rewrite !filter_In, Z.eqb_eq.
    rewrite (fetched_in _ _ item Hok), negb_true_iff. split.
    + intros [[(u & Hin & Hel & ->) Hx] Hk]. exists u.
      split; [exact Hin|]. split; [exact Hel|]. split; [|split; auto].
      intros K. apply str_in_py_In in K. simpl in Hx. congruence.
    + intros (u & Hin & Hel & Hx & -> & Hk). split; [split|exact Hk].
      * eauto.
      * apply not_true_is_false. intros K. apply str_in_py_inv in K.
        now apply Hx.
Qed.

Lemma sample_pop_urgent :
  pop (PyInt 1) PyNone (PyInt 1) (PyStr "yes")
      (mk_world (mk_db [user_C; user_B] [] []) 0 [])
      (Ok [mk_pick "B" "Bob" "101" 1 0 2 0])
      (logged SelectPop (mk_world (mk_db [user_C; user_B] [] []) 0 [])).
Proof.
  exact (pop_return (PyInt 1) PyNone (PyInt 1) (PyStr "yes")
           (mk_world (mk_db [user_C; user_B] [] []) 0 []) 1 []
           [mk_pick "C" "Cid" "102" 1 1 0 0; mk_pick "B" "Bob" "101" 1 0 2 0]
           eq_refl eq_refl eq_refl).
Defined.

Lemma pop_urgent_hidden_witness :
  truthy (PyInt 1) = true
  /\ truthy (PyStr "yes") = true
  /\ exists ex fetched,
       default_excludes PyNone = PyList ex
       /\ order_by_ok
            (select_from_user (mk_db [user_C; user_B] [] [])) fetched = true
       /\ [mk_pick "B" "Bob" "101" 1 0 2 0]
          = py_slice_to
              (filter (fun item => p_status item =? 0) (exclusion ex fetched)
               ++ filter (fun item => p_status item =? 1)
                         (exclusion ex fetched))
              1.
Proof.
  split; [reflexivity|]. split; [reflexivity|].
  destruct (pop_urgent_hidden 1 PyNone (PyInt 1) (PyStr "yes")
              (mk_world (mk_db [user_C; user_B] [] []) 0 [])
              [mk_pick "B" "Bob" "101" 1 0 2 0]
              (logged SelectPop (mk_world (mk_db [user_C; user_B] [] []) 0 []))
              eq_refl eq_refl sample_pop_urgent)
    as (ex & fetched & He & Hok & Hres & _).
  exists ex, fetched. split; [exact He|]. split; [exact Hok | exact Hres].
Defined.

(** *** Writing a status *)

Lemma set_status_success s status w :
  (exists u, In u (user (w_db w)) /\ u_available u = 1 /\ u_id u = s) ->
  py_in_ints status [0; 1; 2] = true ->
  set_status (PyStr s) status w
  = execute_update UpdateSetStatus (set_status_row status (PyStr s))
                   (logged SelectContains w).
Proof.
  intros (u & Hu & Ha & Hs) Hst. rewrite set_status_run. simpl is_str. cbv iota.
  replace (existsb _ (user (w_db w))) with true; [now rewrite Hst|].
  symmetry. apply existsb_exists. exists u. split; [exact Hu|].
  apply contains_where_spec. split; congruence.
Qed.

Lemma set_status_Ok_inv user_id status w :
  fst (set_status user_id status w) = Ok tt ->
  exists s, user_id = PyStr s
    /\ (exists u, In u (user (w_db w)) /\ u_available u = 1 /\ u_id u = s)
    /\ py_in_ints status [0; 1; 2] = true.
Proof.
  rewrite set_status_run. destruct user_id as [| | |s|]; try discriminate.
  simpl is_str. cbv iota.
  destruct (existsb _ _) eqn:E; [|discriminate].
  destruct (py_in_ints status [0; 1; 2]); [|discriminate].
  intros _. exists s. split; [reflexivity|]. split; [|reflexivity].
  apply existsb_exists in E as (u & Hu & Hc).
  apply contains_where_spec in Hc as [Ha Hs]. injection Hs as ->. eauto.
Qed.

Lemma set_status_row_written status s now u :
  status_written (sql_int status) now s u (set_status_row status (PyStr s) now u).
Proof.
  unfold status_written, set_status_row. simpl.
  destruct (String.eqb (u_id u) s) eqn:E.
  - apply String.eqb_eq in E. split; [reflexivity | congruence].
  - apply String.eqb_neq in E. split; [congruence | reflexivity].
Qed.

(** X11. [set_status] on the id of an available user, with a status in
    [[0, 1, 2]], raises nothing; it writes that status and [NOW()] into every
    record carrying the id and leaves all other records and the other tables
    as they were, after one existence query and one update. *)
Theorem set_status_writes s status w :
  (exists u, In u (user (w_db w)) /\ u_available u = 1 /\ u_id u = s) ->
  py_in_ints status [0; 1; 2] = true ->
  fst (set_status (PyStr s) status w) = Ok tt
  /\ Forall2 (status_written (sql_int status) (w_now w) s)
             (user (w_db w))
             (user (w_db (snd (set_status (PyStr s) status w))))
  /\ current (w_db (snd (set_status (PyStr s) status w))) = current (w_db w)
  /\ history (w_db (snd (set_status (PyStr s) status w))) = history (w_db w)
  /\ w_log (snd (set_status (PyStr s) status w))
     = w_log w ++ [SelectContains; UpdateSetStatus].
Proof.
  intros Hex Hst. rewrite (set_status_success s status w Hex Hst). simpl.
  split; [reflexivity|]. split; [|split; [reflexivity|split; [reflexivity|]]].
  - apply Forall2_map_self. intros u. apply set_status_row_written.
  - now rewrite <- app_assoc.
Qed.

Lemma sample_has_A :
  exists u, In u (user (w_db sample_world)) /\ u_available u = 1
            /\ u_id u = "A"%string.
Proof. exists user_A. split; [now left|]. split; reflexivity. Defined.

Lemma set_status_writes_witness :
  (exists u, In u (user (w_db sample_world)) /\ u_available u = 1
             /\ u_id u = "A"%string)
  /\ py_in_ints (PyBool true) [0; 1; 2] = true
  /\ fst (set_status (PyStr "A") (PyBool true) sample_world) = Ok tt.
Proof.
  split; [exact sample_has_A|]. split; [reflexivity|].
  exact (proj1 (set_status_writes "A" (PyBool true) sample_world
                  sample_has_A eq_refl)).
Defined.

Lemma fetchone_after_write (f : user_row -> user_row) s l :
  (forall u, u_id (f u) = u_id u) ->
  (exists u, In u l /\ u_id u = s) ->
  exists u, In u l /\ u_id u = s
    /\ fetchone (map select_user_columns
                  (filter (fun u' => str_eq_py (u_id u') (PyStr s)) (map f l)))
       = Some (select_user_columns (f u)).
Proof.
  intros Hid. induction l as [|x rest IH]; intros (u & Hu & Hs).
  - contradiction.
  - simpl. rewrite Hid. destruct (String.eqb (u_id x) s) eqn:E.
    + apply String.eqb_eq in E. exists x. simpl. auto.
    + apply String.eqb_neq in E. destruct Hu as [->|Hu]; [congruence|].
      destruct IH as (u0 & Hu0 & Hs0 & Hf); [eauto|].
      exists u0. simpl in Hf. auto.
Qed.

Lemma set_status_row_id status user_id now u :
  u_id (set_status_row status user_id now u) = u_id u.
Proof. unfold set_status_row. destruct (str_eq_py _ _); reflexivity. Qed.

(** X12. After a [set_status] that succeeded, [fetch] on the same id returns
    a record with that id and the status just written, the other columns
    being those of a record that carried the id before. *)
Theorem set_status_then_fetch user_id status w :
  fst (set_status user_id status w) = Ok tt ->
  exists u, In u (user (w_db w)) /\ PyStr (u_id u) = user_id
    /\ fst (fetch user_id (snd (set_status user_id status w)))
       = Ok (Some (u_id u, u_name u, u_phone u, u_role u, sql_int status)).
Proof.
  intros Hok. destruct (set_status_Ok_inv _ _ _ Hok) as (s & -> & Hex & Hst).
  rewrite (set_status_success s status w Hex Hst). rewrite fetch_run.
  simpl is_str. cbv iota. simpl fst. simpl snd. simpl user.
  destruct Hex as (u0 & Hu0 & _ & Hs0).
  destruct (fetchone_after_write
              (set_status_row status (PyStr s) (w_now w)) s (user (w_db w)))
    as (u & Hu & Hs & Hf).
  - intros x. apply set_status_row_id.
  - eauto.
  - exists u. split; [exact Hu|]. split; [now rewrite Hs|].
    cbn [str_eq_py] in Hf. rewrite Hf. f_equal. f_equal.
    unfold set_status_row. simpl.
    rewrite (proj2 (String.eqb_eq (u_id u) s) Hs). reflexivity.
Qed.

Lemma set_status_then_fetch_witness :
  fst (set_status (PyStr "A") (PyInt 2) sample_world) = Ok tt
  /\ exists u, In u (user (w_db sample_world)) /\ PyStr (u_id u) = PyStr "A"
       /\ fst (fetch (PyStr "A")
                     (snd (set_status (PyStr "A") (PyInt 2) sample_world)))
          = Ok (Some (u_id u, u_name u, u_phone u, u_role u, sql_int (PyInt 2))).
Proof.
  split; [reflexivity|].
  exact (set_status_then_fetch (PyStr "A") (PyInt 2) sample_world eq_refl).
Defined.

Lemma set_status_row_identity status user_id now u :
  same_identity u (set_status_row status user_id now u).
Proof.
  unfold same_identity, set_status_row.
  destruct (str_eq_py _ _); simpl; repeat split; reflexivity.
Qed.

Lemma reset_status_row_identity days now u :
  same_identity u (reset_status_row days now u).
Proof.
  unfold same_identity, reset_status_row.
  destruct (stale _ _ _); simpl; repeat split; reflexivity.
Qed.

Lemma set_status_row_twice a b s now u :
  set_status_row b (PyStr s) now (set_status_row a (PyStr s) now u)
  = set_status_row b (PyStr s) now u.
Proof.
  unfold set_status_row. simpl.
  destruct (String.eqb (u_id u) s) eqn:E; simpl; now rewrite E.
Qed.

(** X13. Of two successive [set_status] calls on one id the last one wins:
    when the first succeeded and the second status is in [[0, 1, 2]], the
    second succeeds too and the tables end as if it had been the only
    call. *)
Theorem set_status_last_wins s a b w :
  fst (set_status (PyStr s) a w) = Ok tt ->
  py_in_ints b [0; 1; 2] = true ->
  fst (set_status (PyStr s) b (snd (set_status (PyStr s) a w))) = Ok tt
  /\ w_db (snd (set_status (PyStr s) b (snd (set_status (PyStr s) a w))))
     = w_db (snd (set_status (PyStr s) b w)).
Proof.
  intros Hok Hb.
  destruct (set_status_Ok_inv _ _ _ Hok) as (s' & Es & Hex & Ha).
  injection Es as <-.
  rewrite (set_status_success s a w Hex Ha).
  rewrite (set_status_success s b w Hex Hb).
  rewrite set_status_success; [| |exact Hb].
  - simpl. split; [reflexivity|]. f_equal. rewrite map_map.
    apply map_ext. intros u. apply set_status_row_twice.
  - destruct Hex as (u & Hu & Hav & Hs). simpl.
    exists (set_status_row a (PyStr s) (w_now w) u).
    destruct (set_status_row_identity a (PyStr s) (w_now w) u)
      as (Hid & _ & _ & _ & Hav' & _).
    split; [now apply in_map|]. split; congruence.
Qed.

Lemma set_status_last_wins_witness :
  fst (set_status (PyStr "A") (PyInt 2) sample_world) = Ok tt
  /\ py_in_ints (PyInt 0) [0; 1; 2] = true
  /\ w_db (snd (set_status (PyStr "A") (PyInt 0)
                           (snd (set_status (PyStr "A") (PyInt 2) sample_world))))
     = w_db (snd (set_status (PyStr "A") (PyInt 0) sample_world)).
Proof.
  split; [reflexivity|]. split; [reflexivity|].
  exact (proj2 (set_status_last_wins "A" (PyInt 2) (PyInt 0) sample_world
                  eq_refl eq_refl)).
Defined.

Lemma Forall2_same_identity_refl l : Forall2 same_identity l l.
Proof.
  induction l as [|x rest IH]; constructor; [|exact IH].
  unfold same_identity. repeat split; reflexivity.
Qed.

Lemma same_identity_eligible_ids l l' :
  Forall2 same_identity l l' ->
  map u_id (filter eligible l') = map u_id (filter eligible l)
  /\ map u_pages (filter eligible l') = map u_pages (filter eligible l).
Proof.
  induction 1 as [|u u' l l' Hs _ [IH1 IH2]]; [split; reflexivity|].
  destruct Hs as (Hid & _ & _ & Hr & Ha & Hp).
  assert (He : eligible u' = eligible u)
    by (unfold eligible; now rewrite Hr, Ha).
  cbn [filter]. rewrite He. destruct (eligible u); cbn [map];
    rewrite ?Hid, ?Hp, IH1, IH2; split; reflexivity.
Qed.

(** X14. Neither [set_status] nor [reset_status], whatever their arguments
    and outcome, changes a record's id, name, phone, role, availability or
    pages, nor the number or order of the records: the pool of eligible
    reviewers and their pages are the same after as before. *)
Theorem mutations_keep_identity w :
  (forall user_id status,
     Forall2 same_identity (user (w_db w))
             (user (w_db (snd (set_status user_id status w))))
     /\ map u_id (filter eligible
                         (user (w_db (snd (set_status user_id status w)))))
        = map u_id (filter eligible (user (w_db w)))
     /\ min_pages (w_db (snd (set_status user_id status w)))
        = min_pages (w_db w))
  /\ (forall days,
        Forall2 same_identity (user (w_db w))
                (user (w_db (snd (reset_status days w))))
        /\ map u_id (filter eligible
                            (user (w_db (snd (reset_status days w)))))
           = map u_id (filter eligible (user (w_db w)))
        /\ min_pages (w_db (snd (reset_status days w))) = min_pages (w_db w)).
Proof.
  assert (Hall : forall l l', Forall2 same_identity l l' ->
            Forall2 same_identity l l'
            /\ map u_id (filter eligible l') = map u_id (filter eligible l)
            /\ sql_min (map u_pages (filter eligible l'))
               = sql_min (map u_pages (filter eligible l))).
  { intros l l' H. destruct (same_identity_eligible_ids l l' H) as [H1 H2].
    split; [exact H|]. split; [exact H1 | now rewrite H2]. }
  split.
  - intros user_id status. unfold min_pages. apply Hall.
    rewrite set_status_run.
    destruct (is_str user_id); [|apply Forall2_same_identity_refl].
    destruct (existsb _ _); [|apply Forall2_same_identity_refl].
    destruct (py_in_ints status [0; 1; 2]); [|apply Forall2_same_identity_refl].
    simpl. apply Forall2_map_self. intros u. apply set_status_row_identity.
  - intros days. unfold min_pages. apply Hall.
    rewrite reset_status_run.
    destruct (is_int days); [|apply Forall2_same_identity_refl].
    simpl. apply Forall2_map_self. intros u. apply reset_status_row_identity.
Qed.

(** X15. After a [set_status] that wrote [2] (VeryBusy) for an id succeeded,
    a [pop] with a true [hide_busy] does not return that id, whatever its
    other arguments. *)
Theorem set_very_busy_then_pop
    s status w count excludes urgent hide_busy result w' :
  fst (set_status (PyStr s) status w) = Ok tt ->
  sql_int status = 2 ->
  truthy hide_busy = true ->
  pop count excludes urgent hide_busy (snd (set_status (PyStr s) status w))
      (Ok result) w' ->
  ~ In s (map p_id result).
Proof.
  intros Hok H2 Hh Hpop Hin.
  destruct (set_status_Ok_inv _ _ _ Hok) as (s' & Es & Hex & Hst).
  injection Es as <-.
  rewrite (set_status_success s status w Hex Hst) in Hpop.
  apply pop_Ok_inv in Hpop as (n & ex & fetched & _ & _ & Hfetch & -> & _).
  apply in_map_iff in Hin as (item & Hid & Hin).
  apply py_slice_to_In, pop_stages_In in Hin. destruct Hin as (Hf & _ & Hs).
  specialize (Hs Hh).
  apply (fetched_in _ _ _ Hfetch) in Hf as (u' & Hu' & _ & ->).
  simpl in Hu', Hid, Hs.
  apply in_map_iff in Hu' as (u & <- & _).
  rewrite set_status_row_id in Hid.
  match type of Hs with
  | context [effective_status ?db ?r] =>
      destruct (effective_status_cases db r) as [[E _]|[E _]]; rewrite E in Hs
  end.
  - lia.
  - unfold set_status_row in Hs. simpl in Hs.
    rewrite (proj2 (String.eqb_eq (u_id u) s) Hid) in Hs. simpl in Hs. lia.
Qed.

Lemma sample_pop_after_very_busy :
  pop (PyInt 3) PyNone (PyBool false) (PyBool true)
      (snd (set_status (PyStr "B") (PyInt 2) sample_world))
      (Ok [pick_C])
      (logged SelectPop (snd (set_status (PyStr "B") (PyInt 2) sample_world))).
Proof.
  exact (pop_return (PyInt 3) PyNone (PyBool false) (PyBool true)
           (snd (set_status (PyStr "B") (PyInt 2) sample_world)) 3 []
           [pick_A; mk_pick "B" "Bob" "101" 1 2 2 0; pick_F; pick_C]
           eq_refl eq_refl eq_refl).
Defined.

Lemma set_very_busy_then_pop_witness :
  fst (set_status (PyStr "B") (PyInt 2) sample_world) = Ok tt
  /\ sql_int (PyInt 2) = 2
  /\ truthy (PyBool true) = true
  /\ ~ In "B"%string (map p_id [pick_C]).
Proof.
  split; [reflexivity|]. split; [reflexivity|]. split; [reflexivity|].
  exact (set_very_busy_then_pop "B" (PyInt 2) sample_world (PyInt 3) PyNone
           (PyBool false) (PyBool true) [pick_C] _
           eq_refl eq_refl eq_refl sample_pop_after_very_busy).
Defined.

(** *** The sweep on old records *)

Lemma DATEDIFF_nonneg now since : since <= now -> 0 <= DATEDIFF now since.
Proof.
  intros H. unfold DATEDIFF, seconds_per_day.
  assert (since / 86400 <= now / 86400) by (apply Z.div_le_mono; lia). lia.
Qed.

(** X16. [reset_status] with [days <= 0], when no [status_since] lies in the
    future, leaves every record Idle: all statuses are [0] afterwards. *)
Theorem reset_status_all_idle days w :
  days <= 0 ->
  (forall u, In u (user (w_db w)) -> u_status_since u <= w_now w) ->
  forall u', In u' (user (w_db (snd (reset_status (PyInt days) w)))) ->
             u_status u' = 0.
Proof.
  intros Hd Hpast u' Hu'. rewrite reset_status_run in Hu'. simpl in Hu'.
  apply in_map_iff in Hu' as (u & <- & Hu). unfold reset_status_row.
  destruct (stale days (w_now w) u) eqn:E; [reflexivity|].
  unfold stale in E. apply andb_false_iff in E as [E|E].
  - apply negb_false_iff, Z.eqb_eq in E. exact E.
  - apply Z.leb_gt in E. specialize (DATEDIFF_nonneg _ _ (Hpast u Hu)). lia.
Qed.

Lemma reset_status_all_idle_witness :
  0 <= 0
  /\ (forall u, In u (user (w_db sample_world)) ->
                u_status_since u <= w_now sample_world)
  /\ forall u', In u' (user (w_db (snd (reset_status (PyInt 0) sample_world)))) ->
                u_status u' = 0.
Proof.
  assert (H : forall u, In u (user (w_db sample_world)) ->
                        u_status_since u <= w_now sample_world).
  { intros u Hu. simpl in Hu.
    repeat (destruct Hu as [<-|Hu]; [simpl; lia|]). contradiction. }
  split; [lia|]. split; [exact H|].
  refine (reset_status_all_idle 0 sample_world _ H). lia.
Defined.

(** *** [LIKE] and [search] *)

Lemma like_percent_unfold p s :
  like (String "%" p) s
  = like p s
    || match s with
       | EmptyString => false
       | String _ s' => like (String "%" p) s'
       end.
Proof. destruct s; reflexivity. Qed.

Lemma like_percent p s :
  like (String "%" p) s = true
  <-> exists pre suf, s = (pre ++ suf)%string /\ like p suf = true.
Proof.
  induction s as [|c s' IH]; rewrite like_percent_unfold.
  - rewrite orb_false_r. split.
    + intros H. exists EmptyString, EmptyString. auto.
    + intros (pre & suf & E & H). destruct pre; [|discriminate].
      simpl in E. now subst.
  - rewrite orb_true_iff, IH. split.
    + intros [H|(pre & suf & -> & H)].
      * exists EmptyString, (String c s'). auto.
      * exists (String c pre), suf. auto.
    + intros (pre & suf & E & H). destruct pre as [|d pre].
      * simpl in E. subst. now left.
      * simpl in E. injection E as -> ->. right. eauto.
Qed.

Lemma like_plain_char c p s :
  Ascii.eqb c "%"%char = false -> Ascii.eqb c "_"%char = false ->
  Ascii.eqb c "\"%char = false ->
  like (String c p) s
  = match s with
    | EmptyString => false
    | String d s' => Ascii.eqb d c && like p s'
    end.
Proof.
  intros H1 H2 H3. cbn [like]. rewrite H1, H2, H3. reflexivity.
Qed.

Lemma like_plain x : forall p s,
  plainb x = true ->
  (like (x ++ p) s = true
   <-> exists suf, s = (x ++ suf)%string /\ like p suf = true).
Proof.
  induction x as [|c x IH]; intros p s Hx.
  - simpl. split; [eauto | intros (suf & -> & H); exact H].
  - simpl in Hx. apply andb_true_iff in Hx as [Hx Hx'].
    apply andb_true_iff in Hx as [Hx H3]. apply andb_true_iff in Hx as [H1 H2].
    apply negb_true_iff in H1, H2, H3.
    change (String c x ++ p)%string with (String c (x ++ p)).
    rewrite (like_plain_char c _ s H1 H2 H3). destruct s as [|d s'].
    + split; [discriminate | intros (suf & E & _); discriminate].
    + rewrite andb_true_iff, Ascii.eqb_eq, (IH p s' Hx'). split.
      * intros (-> & suf & -> & H). exists suf. split; [reflexivity | exact H].
      * intros (suf & E & H). simpl in E. injection E as -> ->.
        split; [reflexivity|]. exists suf. split; [reflexivity | exact H].
Qed.

Lemma like_contains x s :
  plainb x = true ->
  (like (contains_pattern x) s = true <-> occurs_in x s).
Proof.
  intros Hx. unfold contains_pattern, occurs_in.
  change ("%" ++ x ++ "%")%string with (String "%" (x ++ "%")).
  rewrite like_percent. split.
  - intros (pre & suf & -> & H). apply (like_plain x "%" suf Hx) in H.
    destruct H as (post & -> & _). eauto.
  - intros (pre & post & ->). exists pre, (x ++ post)%string.
    split; [reflexivity|]. apply (like_plain x "%" _ Hx).
    exists post. split; [reflexivity|].
    apply like_percent. exists post, EmptyString. split; [|reflexivity].
    clear. induction post as [|c post IH]; simpl; [reflexivity | now rewrite <- IH].
Qed.

Lemma search_run user_id name phone only_reviewer w :
  search (PyStr user_id) (PyStr name) (PyStr phone) only_reviewer w
  = (Ok (map select_user_columns
           (filter (search_where (truthy only_reviewer) user_id name phone)
                   (user (w_db w)))),
     logged SelectSearch w).
Proof. reflexivity. Qed.

Lemma search_where_plain r user_id name phone u :
  plainb user_id = true -> plainb name = true -> plainb phone = true ->
  (search_where r user_id name phone u = true
   <-> u_available u = 1 /\ (r = true -> u_role u = 1)
       /\ occurs_in user_id (u_id u) /\ occurs_in name (u_name u)
       /\ occurs_in phone (u_phone u)).
Proof.
  intros H1 H2 H3. unfold search_where.
  rewrite !andb_true_iff, Z.eqb_eq.
  rewrite (like_contains _ _ H1), (like_contains _ _ H2), (like_contains _ _ H3).
  destruct r.
  - rewrite Z.eqb_eq. tauto.
  - intuition discriminate.
Qed.

(** X17. For search strings free of [LIKE]'s special characters [%], [_]
    and backslash, [search] returns the columns of exactly the available
    users, reviewers only if [only_reviewer] is true, whose id, name and
    phone each contain the corresponding string. *)
Theorem search_finds_substrings user_id name phone only_reviewer w t :
  plainb user_id = true -> plainb name = true -> plainb phone = true ->
  exists result,
    search (PyStr user_id) (PyStr name) (PyStr phone) only_reviewer w
    = (Ok result, logged SelectSearch w)
    /\ (In t result
        <-> exists u, In u (user (w_db w))
              /\ u_available u = 1
              /\ (truthy only_reviewer = true -> u_role u = 1)
              /\ occurs_in user_id (u_id u)
              /\ occurs_in name (u_name u)
              /\ occurs_in phone (u_phone u)
              /\ t = select_user_columns u).
Proof.
  intros H1 H2 H3. eexists. split; [apply search_run|].
  rewrite in_map_iff. split.
  - intros (u & <- & Hu). apply filter_In in Hu as [Hu Hw].
    apply (search_where_plain _ _ _ _ _ H1 H2 H3) in Hw.
    exists u. tauto.
  - intros (u & Hu & Ha & Hr & Hi & Hn & Hp & ->). exists u.
    split; [reflexivity|]. apply filter_In. split; [exact Hu|].
    apply (search_where_plain _ _ _ _ _ H1 H2 H3). tauto.
Qed.

Lemma search_finds_substrings_witness :
  plainb "" = true /\ plainb "e" = true /\ plainb "10" = true
  /\ exists result,
       search (PyStr "") (PyStr "e") (PyStr "10") (PyBool false) sample_world
       = (Ok result, logged SelectSearch sample_world)
       /\ (In (select_user_columns user_D) result
           <-> exists u, In u (user (w_db sample_world))
                 /\ u_available u = 1
                 /\ (truthy (PyBool false) = true -> u_role u = 1)
                 /\ occurs_in "" (u_id u)
                 /\ occurs_in "e" (u_name u)
                 /\ occurs_in "10" (u_phone u)
                 /\ select_user_columns user_D = select_user_columns u).
Proof.
  split; [reflexivity|]. split; [reflexivity|]. split; [reflexivity|].
  exact (search_finds_substrings "" "e" "10" (PyBool false) sample_world
           (select_user_columns user_D) eq_refl eq_refl eq_refl).
Defined.

Lemma like_matches_all a s :
  a = EmptyString \/ a = "%"%string -> like (contains_pattern a) s = true.
Proof.
  intros [->| ->]; unfold contains_pattern.
  - change ("%" ++ "" ++ "%")%string with (String "%" "%").
    apply like_percent. exists EmptyString, s. split; [reflexivity|].
    apply like_percent. exists s, EmptyString. split; [|reflexivity].
    clear. induction s as [|c s IH]; simpl; [reflexivity | now rewrite <- IH].
  - change ("%" ++ "%" ++ "%")%string with (String "%" (String "%" "%")).
    apply like_percent. exists EmptyString, s. split; [reflexivity|].
    apply like_percent. exists EmptyString, s. split; [reflexivity|].
    apply like_percent. exists s, EmptyString. split; [|reflexivity].
    clear. induction s as [|c s IH]; simpl; [reflexivity | now rewrite <- IH].
Qed.

(** X18. [search] passes its strings to [LIKE] unescaped, so a search string
    ['%'] selects like the empty string: with each of the three strings
    empty or ['%'], [search] returns the columns of every available user, or
    of every available reviewer when [only_reviewer] is true. *)
Theorem search_matches_all a b c only_reviewer w t :
  a = EmptyString \/ a = "%"%string ->
  b = EmptyString \/ b = "%"%string ->
  c = EmptyString \/ c = "%"%string ->
  exists result,
    search (PyStr a) (PyStr b) (PyStr c) only_reviewer w
    = (Ok result, logged SelectSearch w)
    /\ (In t result
        <-> exists u, In u (user (w_db w))
              /\ u_available u = 1
              /\ (truthy only_reviewer = true -> u_role u = 1)
              /\ t = select_user_columns u).
Proof.
  intros Ha Hb Hc. eexists. split; [apply search_run|].
  assert (Hw : forall u,
            search_where (truthy only_reviewer) a b c u = true
            <-> u_available u = 1
                /\ (truthy only_reviewer = true -> u_role u = 1)).
  { intros u. unfold search_where.
    rewrite (like_matches_all a _ Ha), (like_matches_all b _ Hb),
            (like_matches_all c _ Hc), !andb_true_r, andb_true_iff, Z.eqb_eq.
    destruct (truthy only_reviewer).
    - rewrite Z.eqb_eq. tauto.
    - intuition discriminate. }
  rewrite in_map_iff. split.
  - intros (u & <- & Hu). apply filter_In in Hu as [Hu Hs].
    apply Hw in Hs. exists u. tauto.
  - intros (u & Hu & Hav & Hr & ->). exists u. split; [reflexivity|].
    apply filter_In. split; [exact Hu|]. apply Hw. tauto.
Qed.

Lemma search_matches_all_witness :
  ("%"%string = EmptyString \/ "%"%string = "%"%string)
  /\ (EmptyString = EmptyString \/ EmptyString = "%"%string)
  /\ exists result,
       search (PyStr "%") (PyStr "") (PyStr "") (PyBool true) sample_world
       = (Ok result, logged SelectSearch sample_world)
       /\ (In (select_user_columns user_F) result
           <-> exists u, In u (user (w_db sample_world))
                 /\ u_available u = 1
                 /\ (truthy (PyBool true) = true -> u_role u = 1)
                 /\ select_user_columns user_F = select_user_columns u).
Proof.
  split; [now right|]. split; [now left|].
  exact (search_matches_all "%" "" "" (PyBool true) sample_world
           (select_user_columns user_F)
           (or_intror eq_refl) (or_introl eq_refl) (or_introl eq_refl)).
Defined.

(** *** Existence checks *)

Lemma contains_where_reviewer s u :
  contains_where true (PyStr s) u = true <-> eligible u = true /\ u_id u = s.
Proof.
  unfold contains_where, eligible. simpl.
  rewrite !andb_true_iff, String.eqb_eq. tauto.
Qed.

(** X19. [__contains__] with a true [only_reviewer] and [pop] agree on who
    is a reviewer: it answers [True] for an id exactly when a row of [pop]'s
    snapshot carries that id. *)
Theorem contains_reviewer_iff_snapshot s only_reviewer w fetched :
  truthy only_reviewer = true ->
  order_by_ok (select_from_user (w_db w)) fetched = true ->
  (fst (__contains__ (PyStr s) only_reviewer w) = Ok true
   <-> In s (map p_id fetched)).
Proof.
  intros Hr Hok. rewrite contains_run. simpl is_str. cbv iota. rewrite Hr.
  simpl fst. split.
  - intros H. injection H as H. apply existsb_exists in H as (u & Hu & Hc).
    apply contains_where_reviewer in Hc as [He <-].
    apply in_map_iff. exists (select_row (w_db w) u). split; [reflexivity|].
    apply (fetched_in _ _ _ Hok). eauto.
  - intros H. apply in_map_iff in H as (item & <- & Hin).
    apply (fetched_in _ _ _ Hok) in Hin as (u & Hu & He & ->).
    f_equal. apply existsb_exists. exists u. split; [exact Hu|].
    now apply contains_where_reviewer.
Qed.

Lemma contains_reviewer_iff_snapshot_witness :
  truthy (PyBool true) = true
  /\ order_by_ok (select_from_user (w_db sample_world)) sample_fetched = true
  /\ (fst (__contains__ (PyStr "D") (PyBool true) sample_world) = Ok true
      <-> In "D"%string (map p_id sample_fetched)).
Proof.
  split; [reflexivity|]. split; [reflexivity|].
  exact (contains_reviewer_iff_snapshot "D" (PyBool true) sample_world
           sample_fetched eq_refl eq_refl).
Defined.

Lemma contains_where_weaken r user_id u :
  contains_where r user_id u = true -> contains_where false user_id u = true.
Proof.
  unfold contains_where. rewrite !andb_true_iff. tauto.
Qed.

(** X20. Whenever [__contains__] answers [True] for an id, reviewers only or
    not, it also answers [True] without the reviewer restriction, and
    [fetch] on that id returns a record carrying it. *)
Theorem contains_then_fetch user_id only_reviewer w :
  fst (__contains__ user_id only_reviewer w) = Ok true ->
  fst (__contains__ user_id (PyBool false) w) = Ok true
  /\ exists u, In u (user (w_db w)) /\ PyStr (u_id u) = user_id
       /\ u_available u = 1
       /\ exists v, In v (user (w_db w)) /\ u_id v = u_id u
            /\ fst (fetch user_id w) = Ok (Some (select_user_columns v)).
Proof.
  rewrite !contains_run, fetch_run.
  destruct user_id as [| | |s|]; try discriminate. simpl is_str. cbv iota.
  simpl fst. intros H. injection H as H.
  apply existsb_exists in H as (u & Hu & Hc).
  apply contains_where_weaken in Hc. split.
  - f_equal. apply existsb_exists. eauto.
  - apply contains_where_spec in Hc as [Hav Hs]. injection Hs as ->.
    exists u. split; [exact Hu|]. split; [reflexivity|]. split; [exact Hav|].
    destruct (fetchone_after_write (fun x => x) (u_id u) (user (w_db w)))
      as (v & Hv & Hid & Hf); [reflexivity | eauto |].
    rewrite map_id in Hf. cbn [str_eq_py] in Hf. exists v.
    split; [exact Hv|]. split; [exact Hid|]. now rewrite Hf.
Qed.

Lemma contains_then_fetch_witness :
  fst (__contains__ (PyStr "C") (PyBool true) sample_world) = Ok true
  /\ fst (__contains__ (PyStr "C") (PyBool false) sample_world) = Ok true.
Proof.
  split; [reflexivity|].
  exact (proj1 (contains_then_fetch (PyStr "C") (PyBool true) sample_world
                  eq_refl)).
Defined.

Lemma pytype_eqb_eq a b : pytype_eqb a b = true <-> a = b.
Proof. destruct a, b; simpl; split; intros H; congruence. Qed.

(** X21. The type checks of the read operations and of [reset_status]:
    [fetch] and [__contains__] raise exactly when [user_id] is not a [str],
    [search] exactly when one of its three strings is not a [str],
    [reset_status] exactly when [days] is not an [int] (a [bool] is
    refused); a call that raises has executed no statement and changed
    nothing, and a call that does not has executed exactly one. *)
Theorem type_checks w :
  (forall user_id,
     ((exists e, fst (fetch user_id w) = Raise e) <-> type_of user_id <> TStr)
     /\ (type_of user_id <> TStr -> snd (fetch user_id w) = w)
     /\ (type_of user_id = TStr ->
         snd (fetch user_id w) = logged SelectFetch w))
  /\ (forall user_id only_reviewer,
        ((exists e, fst (__contains__ user_id only_reviewer w) = Raise e)
         <-> type_of user_id <> TStr)
        /\ (type_of user_id <> TStr ->
            snd (__contains__ user_id only_reviewer w) = w)
        /\ (type_of user_id = TStr ->
            snd (__contains__ user_id only_reviewer w)
            = logged SelectContains w))
  /\ (forall user_id name phone only_reviewer,
        ((exists e, fst (search user_id name phone only_reviewer w) = Raise e)
         <-> ~ (type_of user_id = TStr /\ type_of name = TStr
                /\ type_of phone = TStr))
        /\ (~ (type_of user_id = TStr /\ type_of name = TStr
               /\ type_of phone = TStr) ->
            snd (search user_id name phone only_reviewer w) = w)
        /\ (type_of user_id = TStr -> type_of name = TStr ->
            type_of phone = TStr ->
            snd (search user_id name phone only_reviewer w)
            = logged SelectSearch w))
  /\ (forall days,
        (fst (reset_status days w) = Raise (AssertionError "invalid arg: days")
         <-> type_of days <> TInt)
        /\ (type_of days <> TInt -> snd (reset_status days w) = w)
        /\ fst (reset_status (PyBool true) w)
           = Raise (AssertionError "invalid arg: days")).
Proof.
  split; [|split; [|split]].
  - intros user_id. rewrite fetch_run. unfold is_str.
    destruct (pytype_eqb (type_of user_id) TStr) eqn:E.
    + apply pytype_eqb_eq in E. simpl. split; [|split]; try tauto.
      split; [intros [e H]; discriminate | tauto].
    + assert (type_of user_id <> TStr)
        by (intros K; apply pytype_eqb_eq in K; congruence).
      simpl. split; [|split]; try tauto. split; eauto.
  - intros user_id only_reviewer. rewrite contains_run. unfold is_str.
    destruct (pytype_eqb (type_of user_id) TStr) eqn:E.
    + apply pytype_eqb_eq in E. simpl. split; [|split]; try tauto.
      split; [intros [e H]; discriminate | tauto].
    + assert (type_of user_id <> TStr)
        by (intros K; apply pytype_eqb_eq in K; congruence).
      simpl. split; [|split]; try tauto. split; eauto.
  - intros user_id name phone only_reviewer.
    unfold search, bind, py_assert, execute_select, ret, raise, is_str.
    destruct (pytype_eqb (type_of user_id) TStr) eqn:E1;
      [apply pytype_eqb_eq in E1
      | assert (type_of user_id <> TStr)
          by (intros K; apply pytype_eqb_eq in K; congruence)];
    [destruct (pytype_eqb (type_of name) TStr) eqn:E2;
      [apply pytype_eqb_eq in E2
      | assert (type_of name <> TStr)
          by (intros K; apply pytype_eqb_eq in K; congruence)];
     [destruct (pytype_eqb (type_of phone) TStr) eqn:E3;
       [apply pytype_eqb_eq in E3
       | assert (type_of phone <> TStr)
           by (intros K; apply pytype_eqb_eq in K; congruence)] |] |];
    simpl; (split; [|split]); try tauto;
      try (split; [intros [e K]; discriminate | tauto]);
      try (split; [tauto | eauto]).
  - intros days. rewrite !reset_status_run. unfold is_int.
    destruct (pytype_eqb (type_of days) TInt) eqn:E.
    + apply pytype_eqb_eq in E. simpl. split; [|split]; try tauto; try reflexivity.
      split; [discriminate | tauto].
    + assert (type_of days <> TInt)
        by (intros K; apply pytype_eqb_eq in K; congruence).
      simpl. split; [|split]; try tauto; try reflexivity.
Qed.

(** *** Asking for fewer, and picking after a status change *)

(** X22. Asking for fewer gives a prefix: for [0 <= n <= m], whenever
    [pop] with [count = m] can return a list, [pop] with [count = n] and the
    same other arguments can return its first [n] entries. *)
Theorem pop_prefix n m excludes urgent hide_busy w result w' :
  0 <= n <= m ->
  pop (PyInt m) excludes urgent hide_busy w (Ok result) w' ->
  pop (PyInt n) excludes urgent hide_busy w
      (Ok (firstn (Z.to_nat n) result)) w'.
Proof.
  intros Hnm Hpop.
  apply pop_Ok_inv in Hpop as (m' & ex & fetched & Hc & He & Hok & -> & ->).
  injection Hc as <-.
  set (l := pop_stages ex (truthy urgent) (truthy hide_busy) fetched).
  replace (firstn (Z.to_nat n) (py_slice_to l m)) with (py_slice_to l n).
  - eapply pop_return; [reflexivity | exact He | exact Hok].
  - unfold py_slice_to.
    destruct (n <? 0) eqn:En; [apply Z.ltb_lt in En; lia|].
    destruct (m <? 0) eqn:Em; [apply Z.ltb_lt in Em; lia|].
    rewrite firstn_firstn. f_equal. lia.
Qed.

Lemma pop_prefix_witness :
  0 <= 1 <= 2
  /\ pop (PyInt 1) PyNone (PyBool false) (PyBool true) sample_world
         (Ok (firstn (Z.to_nat 1) [pick_B; pick_C]))
         (logged SelectPop sample_world).
Proof.
  split; [lia|].
  refine (pop_prefix 1 2 PyNone (PyBool false) (PyBool true) sample_world
            [pick_B; pick_C] (logged SelectPop sample_world) _ sample_pop_hide).
  lia.
Defined.

Lemma effective_status_unflagged db u :
  latest_reviewerid db <> Some (u_id u) -> effective_status db u = u_status u.
Proof.
  intros H. destruct (effective_status_cases db u) as [[_ L]|[E _]];
    [congruence | exact E].
Qed.

(** X23. After a [set_status] that wrote Idle [0] or Busy [1] for the id of
    an eligible reviewer who is not the one flagged, a [pop] without
    exclusions and with [count] at least the number of eligible reviewers
    returns that reviewer. *)
Theorem set_status_then_pop_returns
    s status w n excludes urgent hide_busy result w' :
  fst (set_status (PyStr s) status w) = Ok tt ->
  sql_int status = 0 \/ sql_int status = 1 ->
  (exists u, In u (user (w_db w)) /\ eligible u = true /\ u_id u = s) ->
  NoDup (map h_id (history (w_db w))) ->
  ~ anti_repeat (w_db w) s ->
  truthy excludes = false ->
  Z.of_nat (List.length (filter eligible (user (w_db w)))) <= n ->
  pop (PyInt n) excludes urgent hide_busy
      (snd (set_status (PyStr s) status w)) (Ok result) w' ->
  In s (map p_id result).
Proof.
  intros Hok Hst (u & Hu & He & Hs) Hnd Hna Hex Hn Hpop.
  destruct (set_status_Ok_inv _ _ _ Hok) as (s' & Es & Hav & Hin).
  injection Es as <-.
  rewrite (set_status_success s status w Hav Hin) in Hpop.
  apply pop_Ok_inv in Hpop as (n' & ex & fetched & Hc & Hd & Hfetch & -> & _).
  injection Hc as <-.
  unfold default_excludes in Hd. rewrite Hex in Hd. simpl in Hd.
  injection Hd as <-.
  simpl in Hfetch.
  set (f := set_status_row status (PyStr s) (w_now w)) in *.
  set (db' := mk_db (map f (user (w_db w))) (current (w_db w))
                    (history (w_db w))) in *.
  assert (Hflag : latest_reviewerid db' <> Some s).
  { change (latest_reviewerid db') with (latest_reviewerid (w_db w)).
    intros K. now apply (latest_reviewerid_spec _ _ Hnd) in K. }
  assert (Hfu : f u = mk_user (u_id u) (u_name u) (u_phone u) (u_role u)
                              (u_available u) (sql_int status) (w_now w)
                              (u_pages u)).
  { unfold f, set_status_row. simpl.
    now rewrite (proj2 (String.eqb_eq (u_id u) s) Hs). }
  assert (Hitem : In (select_row db' (f u)) fetched).
  { apply (fetched_in _ _ _ Hfetch). exists (f u).
    split; [simpl; now apply in_map|]. split; [|reflexivity].
    rewrite Hfu. exact He. }
  assert (Hstat : p_status (select_row db' (f u)) = sql_int status).
  { simpl. rewrite effective_status_unflagged.
    - now rewrite Hfu.
    - rewrite Hfu. simpl. now rewrite Hs. }
  assert (Hid : p_id (select_row db' (f u)) = s) by (rewrite Hfu; exact Hs).
  set (l := pop_stages [] (truthy urgent) (truthy hide_busy) fetched).
  assert (Hl : In (select_row db' (f u)) l).
  { unfold l, pop_stages. rewrite (exclusion_noop [] fetched) by (intros ? _ []).
    assert (H1 : In (select_row db' (f u))
                    (if truthy urgent then urgency fetched else fetched)).
    { destruct (truthy urgent); [now apply urgency_In | exact Hitem]. }
    destruct (truthy hide_busy); [|exact H1].
    unfold busy_hiding. apply filter_In. split; [exact H1|].
    rewrite Hstat. destruct Hst as [-> | ->]; reflexivity. }
  apply in_map_iff. exists (select_row db' (f u)). split; [exact Hid|].
  assert (Hlen : (List.length l <= Z.to_nat n)%nat).
  { assert (H1 := pop_stages_length [] (truthy urgent) (truthy hide_busy) fetched).
    fold l in H1. rewrite (fetched_length _ _ Hfetch) in H1. simpl in H1.
    assert (H2 : Forall2 same_identity (user (w_db w)) (map f (user (w_db w)))).
    { apply Forall2_map_self. intros x. apply set_status_row_identity. }
    apply same_identity_eligible_ids in H2 as [H2 _].
    apply (f_equal (@List.length string)) in H2. rewrite !length_map in H2.
    lia. }
  unfold py_slice_to. destruct (n <? 0) eqn:En; [apply Z.ltb_lt in En; lia|].
  now rewrite firstn_all2.
Qed.

Lemma sample_has_eligible_B :
  exists u, In u (user (w_db sample_world)) /\ eligible u = true
            /\ u_id u = "B"%string.
Proof.
  exists user_B. split; [simpl; tauto|]. split; reflexivity.
Defined.

Lemma sample_B_not_flagged : ~ anti_repeat (w_db sample_world) "B".
Proof.
  intros H.
  apply (latest_reviewerid_spec _ _ sample_history_nodup) in H. discriminate H.
Defined.

Lemma sample_pop_after_busy :
  pop (PyInt 4) PyNone (PyBool false) (PyBool true)
      (snd (set_status (PyStr "B") (PyInt 1) sample_world))
      (Ok [mk_pick "B" "Bob" "101" 1 1 2 0; pick_C])
      (logged SelectPop (snd (set_status (PyStr "B") (PyInt 1) sample_world))).
Proof.
  exact (pop_return (PyInt 4) PyNone (PyBool false) (PyBool true)
           (snd (set_status (PyStr "B") (PyInt 1) sample_world)) 4 []
           [pick_A; mk_pick "B" "Bob" "101" 1 1 2 0; pick_F; pick_C]
           eq_refl eq_refl eq_refl).
Defined.

Lemma set_status_then_pop_returns_witness :
  fst (set_status (PyStr "B") (PyInt 1) sample_world) = Ok tt
  /\ (sql_int (PyInt 1) = 0 \/ sql_int (PyInt 1) = 1)
  /\ ~ anti_repeat (w_db sample_world) "B"
  /\ In "B"%string (map p_id [mk_pick "B" "Bob" "101" 1 1 2 0; pick_C]).
Proof.
  assert (Hn : Z.of_nat (List.length
                 (filter eligible (user (w_db sample_world)))) <= 4)
    by (simpl; lia).
  split; [reflexivity|]. split; [now right|].
  split; [exact sample_B_not_flagged|].
  exact (set_status_then_pop_returns "B" (PyInt 1) sample_world 4 PyNone
           (PyBool false) (PyBool true) _ _ eq_refl (or_intror eq_refl)
           sample_has_eligible_B sample_history_nodup sample_B_not_flagged
           eq_refl Hn sample_pop_after_busy).
Defined.

(** X24. A status just written survives a sweep: after a [set_status] that
    succeeded, a [reset_status] with [days >= 1] at the same instant leaves
    every record of that id with the status written. *)
Theorem set_status_survives_sweep s status days w u' :
  fst (set_status (PyStr s) status w) = Ok tt ->
  1 <= days ->
  In u' (user (w_db (snd (reset_status (PyInt days)
                            (snd (set_status (PyStr s) status w)))))) ->
  u_id u' = s ->
  u_status u' = sql_int status /\ u_status_since u' = w_now w.
Proof.
  intros Hok Hd Hin Hid.
  destruct (set_status_Ok_inv _ _ _ Hok) as (s' & Es & Hav & Hst).
  injection Es as <-.
  rewrite (set_status_success s status w Hav Hst) in Hin.
  rewrite reset_status_run in Hin. simpl in Hin.
  apply in_map_iff in Hin as (u1 & <- & Hin).
  apply in_map_iff in Hin as (u & <- & _).
  assert (Hs : u_id u = s).
  { destruct (reset_status_row_identity days (w_now w)
                (set_status_row status (PyStr s) (w_now w) u)) as [K _].
    rewrite K, set_status_row_id in Hid. exact Hid. }
  assert (Hf : set_status_row status (PyStr s) (w_now w) u
               = mk_user (u_id u) (u_name u) (u_phone u) (u_role u)
                         (u_available u) (sql_int status) (w_now w) (u_pages u)).
  { unfold set_status_row. simpl.
    now rewrite (proj2 (String.eqb_eq (u_id u) s) Hs). }
  rewrite Hf. unfold reset_status_row.
  replace (stale days (w_now w) _) with false; [split; reflexivity|].
  symmetry. unfold stale. simpl. apply andb_false_iff. right.
  apply Z.leb_gt. unfold DATEDIFF. lia.
Qed.

Lemma set_status_survives_sweep_witness :
  fst (set_status (PyStr "B") (PyInt 2) sample_world) = Ok tt
  /\ 1 <= 7
  /\ u_status (mk_user "B" "Bob" "101" 1 1 2 864000 12) = sql_int (PyInt 2).
Proof.
  split; [reflexivity|]. split; [lia|].
  refine (proj1 (set_status_survives_sweep "B" (PyInt 2) 7 sample_world
                   (mk_user "B" "Bob" "101" 1 1 2 864000 12) eq_refl _ _ eq_refl)).
  - lia.
  - simpl. tauto.
Defined.

(** *** Independence of the order tables enumerate their rows in *)

Lemma existsb_perm {A : Type} (f : A -> bool) l l' :
  Permutation l l' -> existsb f l = existsb f l'.
Proof.
  intros H. destruct (existsb f l) eqn:E, (existsb f l') eqn:E';
    try reflexivity.
  - apply existsb_exists in E as (x & Hx & Hf).
    assert (X : existsb f l' = true).
    { apply existsb_exists. exists x. split; [|exact Hf].
      now apply (Permutation_in _ H). }
    congruence.
  - apply existsb_exists in E' as (x & Hx & Hf).
    assert (X : existsb f l = true).
    { apply existsb_exists. exists x. split; [|exact Hf].
      now apply (Permutation_in _ (Permutation_sym H)). }
    congruence.
Qed.

Lemma filter_perm {A : Type} (p : A -> bool) l l' :
  Permutation l l' -> Permutation (filter p l) (filter p l').
Proof.
  induction 1 as [|x l l' _ IH|x y l|l l' l'' _ IH1 _ IH2]; simpl.
  - constructor.
  - destruct (p x); [now apply perm_skip | exact IH].
  - destruct (p x), (p y); try apply Permutation_refl. apply perm_swap.
  - eapply perm_trans; eassumption.
Qed.

Lemma latest_history_perm h h' :
  Permutation h h' -> NoDup (map h_id h) ->
  latest_history h' = latest_history h.
Proof.
  intros Hp Hnd. destruct (latest_history h) as [m|] eqn:E.
  - destruct (latest_history_max _ _ E) as [Hin Hmax].
    apply (is_latest_unique (mk_db [] [] h') m).
    + simpl. exact (Permutation_NoDup (Permutation_map h_id Hp) Hnd).
    + split; simpl.
      * now apply (Permutation_in _ Hp).
      * intros r Hr. apply Hmax.
        now apply (Permutation_in _ (Permutation_sym Hp)).
  - destruct h as [|r rest].
    + apply Permutation_nil in Hp. now subst.
    + destruct (latest_history_some (r :: rest)) as [m Hm]; congruence.
Qed.

Lemma sql_min_perm xs ys : Permutation xs ys -> sql_min xs = sql_min ys.
Proof.
  intros Hp. destruct (sql_min xs) as [m|] eqn:Ex, (sql_min ys) as [m'|] eqn:Ey.
  - destruct (sql_min_spec _ _ Ex) as [Hin Hle].
    destruct (sql_min_spec _ _ Ey) as [Hin' Hle'].
    f_equal. apply Z.le_antisymm.
    + apply Hle. now apply (Permutation_in _ (Permutation_sym Hp)).
    + apply Hle'. now apply (Permutation_in _ Hp).
  - destruct ys; [|discriminate]. apply Permutation_sym, Permutation_nil in Hp.
    subst. discriminate.
  - destruct xs; [|discriminate]. apply Permutation_nil in Hp.
    subst. discriminate.
  - reflexivity.
Qed.

Lemma select_row_perm db db' u :
  Permutation (user db) (user db') ->
  Permutation (current db) (current db') ->
  Permutation (history db) (history db') ->
  NoDup (map h_id (history db)) ->
  select_row db' u = select_row db u.
Proof.
  intros Hu Hc Hh Hnd.
  assert (E1 : effective_status db' u = effective_status db u).
  { unfold effective_status, latest_reviewerid.
    rewrite (latest_history_perm _ _ Hh Hnd).
    destruct (latest_history (history db)) as [lh|]; [|reflexivity].
    unfold started_after. now rewrite (existsb_perm _ _ _ Hc). }
  assert (E2 : pages_diff db' u = pages_diff db u).
  { unfold pages_diff, min_pages.
    rewrite (sql_min_perm _ _ (Permutation_map u_pages (filter_perm eligible _ _ Hu))).
    reflexivity. }
  assert (E3 : p_current (select_row db' u) = p_current (select_row db u)).
  { rewrite !current_count. f_equal. apply Permutation_length.
    apply Permutation_sym, filter_perm, Hc. }
  simpl in E3. unfold select_row. now rewrite E1, E2, E3.
Qed.

Lemma permb_perm_l l l' fetched :
  Permutation l l' -> permb l fetched = permb l' fetched.
Proof.
  intros H. destruct (permb l fetched) eqn:E, (permb l' fetched) eqn:E';
    try reflexivity.
  - apply permb_sound in E.
    rewrite (permb_complete l' fetched) in E'; [discriminate|].
    eapply perm_trans; [apply Permutation_sym, H | exact E].
  - apply permb_sound in E'.
    rewrite (permb_complete l fetched) in E; [discriminate|].
    eapply perm_trans; [exact H | exact E'].
Qed.

(** X25. The snapshot does not depend on the order in which the three
    tables enumerate their rows: for two databases holding the same rows,
    history ids being distinct, every reviewer gets the same snapshot row
    and [pop]'s query admits the same answers. *)
Theorem snapshot_order_independent db db' :
  Permutation (user db) (user db') ->
  Permutation (current db) (current db') ->
  Permutation (history db) (history db') ->
  NoDup (map h_id (history db)) ->
  (forall u, select_row db' u = select_row db u)
  /\ Permutation (select_from_user db) (select_from_user db')
  /\ (forall fetched,
        order_by_ok (select_from_user db') fetched
        = order_by_ok (select_from_user db) fetched).
Proof.
  intros Hu Hc Hh Hnd.
  assert (Hrow : forall u, select_row db' u = select_row db u)
    by (intros u; now apply select_row_perm).
  assert (Hsel : Permutation (select_from_user db) (select_from_user db')).
  { unfold select_from_user.
    rewrite (map_ext (select_row db') (select_row db) Hrow).
    apply Permutation_map, filter_perm, Hu. }
  split; [exact Hrow|]. split; [exact Hsel|].
  intros fetched. unfold order_by_ok. f_equal.
  apply permb_perm_l. now apply Permutation_sym.
Qed.

Lemma snapshot_order_independent_witness :
  Permutation (user sample_db) (user_B :: user_A :: [user_C; user_D; user_E; user_F])
  /\ NoDup (map h_id (history sample_db))
  /\ order_by_ok
       (select_from_user
          (mk_db (user_B :: user_A :: [user_C; user_D; user_E; user_F])
                 (current sample_db) (history sample_db)))
       sample_fetched
     = order_by_ok (select_from_user sample_db) sample_fetched.
Proof.
  split; [apply perm_swap|]. split; [exact sample_history_nodup|].
  exact (proj2 (proj2 (snapshot_order_independent sample_db
           (mk_db (user_B :: user_A :: [user_C; user_D; user_E; user_F])
                  (current sample_db) (history sample_db))
           (perm_swap _ _ _) (Permutation_refl _) (Permutation_refl _)
           sample_history_nodup)) sample_fetched).
Defined.

(** *** The order of what [pop] returns *)

Lemma StronglySorted_firstn {A : Type} (R : A -> A -> Prop) k : forall l,
  StronglySorted R l -> StronglySorted R (firstn k l).
Proof.
  induction k as [|k IH]; intros l H; simpl; [constructor|].
  destruct l as [|x rest]; [constructor|].
  inversion H as [|? ? Hrest Hx]; subst.
  constructor; [now apply IH|].
  apply Forall_forall. intros y Hy. rewrite Forall_forall in Hx. apply Hx.
  rewrite <- (firstn_skipn k rest). apply in_or_app. now left.
Qed.

Lemma before_firstn a b k l : before a b (firstn k l) -> before a b l.
Proof.
  intros (l1 & l2 & l3 & E). exists l1, l2, (l3 ++ skipn k l).
  rewrite <- (firstn_skipn k l) at 1. rewrite E.
  rewrite <- !app_assoc. simpl. rewrite <- !app_assoc. reflexivity.
Qed.

(** X26. With a false [urgent], the list [pop] returns ascends in
    [(current, pages_diff)], and any two of its entries come in the order in
    which the query returned their rows: the exclusion and busy-hiding
    comprehensions and the slice drop rows but never reorder them. *)
Theorem pop_keeps_fetched_order n excludes urgent hide_busy w result w' :
  truthy urgent = false ->
  pop (PyInt n) excludes urgent hide_busy w (Ok result) w' ->
  StronglySorted key_le result
  /\ exists ex fetched,
       default_excludes excludes = PyList ex
       /\ order_by_ok (select_from_user (w_db w)) fetched = true
       /\ result = py_slice_to (pop_stages ex false (truthy hide_busy) fetched) n
       /\ (forall item, In item result -> In item fetched)
       /\ (forall a b, before a b result -> before a b fetched).
Proof.
  intros Hu Hpop.
  apply pop_Ok_inv in Hpop as (n' & ex & fetched & Hc & He & Hok & -> & _).
  injection Hc as <-.
  rewrite Hu. destruct (order_by_ok_inv _ _ Hok) as [_ Hs].
  destruct (py_slice_to_firstn
              (pop_stages ex false (truthy hide_busy) fetched) n) as [k Hk].
  split.
  - rewrite Hk. apply StronglySorted_firstn.
    unfold pop_stages, busy_hiding, exclusion.
    destruct (truthy hide_busy);
      [now apply StronglySorted_filter, StronglySorted_filter
      | now apply StronglySorted_filter].
  - exists ex, fetched. split; [exact He|]. split; [exact Hok|].
    split; [reflexivity|]. split.
    + intros item Hin. apply py_slice_to_In, pop_stages_In in Hin. tauto.
    + intros a b H. rewrite Hk in H. apply before_firstn in H.
      unfold pop_stages, busy_hiding, exclusion in H.
      destruct (truthy hide_busy).
      * now apply before_filter_reflects, before_filter_reflects in H.
      * now apply before_filter_reflects in H.
Qed.

Lemma pop_keeps_fetched_order_witness :
  truthy (PyBool false) = false
  /\ StronglySorted key_le [pick_B; pick_C].
Proof.
  split; [reflexivity|].
  exact (proj1 (pop_keeps_fetched_order 2 PyNone (PyBool false) (PyBool true)
                  sample_world [pick_B; pick_C] (logged SelectPop sample_world)
                  eq_refl sample_pop_hide)).
Defined.
